(** * RWA backend (backend-lisk-go): asset records, derived metrics and
      request handlers

    A shallow embedding of [models/asset.go] and [handlers/asset_handler.go].
    The handlers are functions from a request, the instant read from the
    clock and the contents of the [assets] table to a response and the new
    contents of the table.

    Conventions.
    - [int64] values are integers of [Z]; the one place where the code can
      overflow ([TotalSupply - StakedAmount]) has its wrap-around written out.
    - [float64] values are the binary64 primitive floats of the prover, so
      every float operation below is the IEEE-754 one.
    - A Go slice is a [slice]: the nil slice ([null] in JSON) is kept apart
      from an allocated slice without elements ([[]] in JSON).
    - A JSON body is the Go struct it decodes to (a key that is absent leaves
      the zero value of its field), or a body that fails to decode.
    - [strconv.ParseFloat] and [time.Time.Format] belong to the Go runtime and
      are taken as parameters ([Runtime]). *)

From Stdlib Require Import ZArith List String Ascii Bool Lia Floats.
From Stdlib Require Import DecimalString DecimalZ DecimalPos Permutation Sorted.
Import ListNotations.

Set Warnings "-inexact-float".

Local Open Scope string_scope.
Local Open Scope list_scope.
Local Open Scope Z_scope.

(* ================================================================== *)
(** ** Go runtime                                                      *)
(* ================================================================== *)

(** [time.Time], as nanoseconds since the Unix epoch. *)
Definition Time := Z.

(** [t.Unix()]: whole seconds since the epoch. *)
Definition Unix (t : Time) : Z := t / 1000000000.

(** The zero [time.Time] (January 1, year 1, 00:00 UTC). *)
Definition zeroTime : Time := -62135596800 * 1000000000.

Definition IsZero (t : Time) : bool := t =? zeroTime.

Class Runtime := {
  (** [strconv.ParseFloat(s, 64)]; [None] when it returns an error. *)
  ParseFloat : string -> option float;
  (** [t.Format(layout)]. *)
  Format : Time -> string -> string
}.

Definition int64_min : Z := - 2 ^ 63.
Definition int64_max : Z := 2 ^ 63 - 1.

Definition in_int64 (z : Z) : bool := (int64_min <=? z) && (z <=? int64_max).

(** Two's complement wrap-around of an [int64] result. *)
Definition wrap64 (z : Z) : Z := (z + 2 ^ 63) mod 2 ^ 64 - 2 ^ 63.

(** [float64(n)] for [n : int64]: conversion with round to nearest, ties to
    even.  [of_uint63] covers [0 .. 2^63-1]; the sign is put back after. *)
Definition float64_of_int64 (n : Z) : float :=
  if n =? int64_min then (- 0x1p63)%float
  else if n <? 0 then (- of_uint63 (Uint63.of_Z (- n)))%float
  else of_uint63 (Uint63.of_Z n).

Definition is_digit (c : ascii) : bool :=
  let n := Z.of_N (N_of_ascii c) in (48 <=? n) && (n <=? 57).

Definition digit_val (c : ascii) : Z := Z.of_N (N_of_ascii c) - 48.

(** The digit loop of [strconv.ParseUint] in base 10: any byte that is not a
    decimal digit is a syntax error. *)
Fixpoint parse_digits (s : string) (acc : Z) : option Z :=
  match s with
  | EmptyString => Some acc
  | String c rest =>
      if is_digit c then parse_digits rest (10 * acc + digit_val c) else None
  end.

(** [strconv.ParseInt(s, 10, 64)]; [None] when it returns an error (syntax
    error, or a value outside [int64]). *)
Definition ParseInt (s : string) : option Z :=
  match s with
  | EmptyString => None
  | String c rest =>
      let '(neg, body) :=
        if Ascii.eqb c "+" then (false, rest)
        else if Ascii.eqb c "-" then (true, rest)
        else (false, s) in
      match body with
      | EmptyString => None
      | _ =>
          match parse_digits body 0 with
          | None => None
          | Some un =>
              let n := if neg then - un else un in
              if in_int64 n then Some n else None
          end
      end
  end.

(** The [%d] verb of [fmt.Sprintf] on an integer. *)
Definition itoa (z : Z) : string := NilZero.string_of_int (Z.to_int z).

(* ================================================================== *)
(** ** models/asset.go                                                 *)
(* ================================================================== *)

(** A Go slice, as far as the program can tell slices apart: the nil slice,
    or an allocated slice with its elements.  [encoding/json] writes the
    first as [null] and the second as an array. *)
Inductive slice (A : Type) :=
| nil_slice
| slice_of (elems : list A).
Arguments nil_slice {A}.
Arguments slice_of {A} elems.

Definition elems {A : Type} (s : slice A) : list A :=
  match s with
  | nil_slice => []
  | slice_of l => l
  end.

(** [len(s)] *)
Definition len {A : Type} (s : slice A) : Z := Z.of_nat (List.length (elems s)).

(** [append(s, x)]: the result is allocated, also when [s] is nil. *)
Definition slice_append {A : Type} (s : slice A) (x : A) : slice A :=
  slice_of (elems s ++ [x]).

Record Document := {
  doc_Name : string;
  doc_Date : string;
  doc_URL : string
}.

Record Staker := {
  Address : string;
  Amount : float;
  Percentage : float
}.

(** [type Asset struct].  [Documents] and [TopStakers] carry the tag
    [gorm:"-"]: they live in the Go value only and are never written to the
    table. *)
Record Asset := {
  ID : string;
  Name : string;
  Symbol : string;
  Type_ : string;
  Institution : string;
  InstitutionAddress : string;
  Description : string;
  TotalSupply : Z;
  StakedAmount : Z;
  PriceUsd : float;
  AnnualYield : float;
  CreatedAt : Time;
  UpdatedAt : Time;
  Blockchain : string;
  ContractAddress : string;
  TxHash : string;
  DocumentsURI : string;
  ImageURI : string;
  Documents : slice Document;
  TopStakers : slice Staker
}.

Record AssetResponse := {
  asset : Asset;
  AvailableSupply : Z;
  MarketCap : float;
  MinInvestment : float;
  MaxInvestment : float;
  StakingProgress : float;
  IsContractActive : bool;
  TotalValue : float;
  StakedValue : float;
  AvailableValue : float
}.

Module MintRequest.
Record t := {
    Name : string;               (* binding:"required" *)
    Symbol : string;             (* binding:"required" *)
    InstitutionName : string;    (* binding:"required" *)
    InstitutionAddress : string;
    Description : string;
    TotalSupply : string;        (* binding:"required" *)
    ExpectedYield : string;      (* binding:"required" *)
    PricePerRWA : string;
    ContractAddress : string;
    TxHash : string;
    DocumentsURI : string;
    ImageURI : string
  }.
End MintRequest.

Module UpdateContractRequest.
Record t := {
    ContractAddress : string;    (* binding:"required" *)
    TxHash : string
  }.
End UpdateContractRequest.

(** The anonymous request struct of [UpdateAssetStaking]. *)
Module UpdateStakingRequest.
Record t := {
    StakedAmount : Z             (* binding:"required" *)
  }.
End UpdateStakingRequest.

Record TokenStats := {
  ts_TotalSupply : Z;
  ts_CirculatingSupply : Z;
  ts_HolderCount : Z;
  ts_Price : float;
  ts_MarketCap : float
}.

(** Field assignments [a.F = v]. *)
Definition set_StakedAmount (v : Z) (a : Asset) : Asset :=
  {| ID := ID a; Name := Name a; Symbol := Symbol a; Type_ := Type_ a;
     Institution := Institution a; InstitutionAddress := InstitutionAddress a;
     Description := Description a; TotalSupply := TotalSupply a;
     StakedAmount := v; PriceUsd := PriceUsd a; AnnualYield := AnnualYield a;
     CreatedAt := CreatedAt a; UpdatedAt := UpdatedAt a;
     Blockchain := Blockchain a; ContractAddress := ContractAddress a;
     TxHash := TxHash a; DocumentsURI := DocumentsURI a;
     ImageURI := ImageURI a; Documents := Documents a;
     TopStakers := TopStakers a |}.

Definition set_AnnualYield (v : float) (a : Asset) : Asset :=
  {| ID := ID a; Name := Name a; Symbol := Symbol a; Type_ := Type_ a;
     Institution := Institution a; InstitutionAddress := InstitutionAddress a;
     Description := Description a; TotalSupply := TotalSupply a;
     StakedAmount := StakedAmount a; PriceUsd := PriceUsd a; AnnualYield := v;
     CreatedAt := CreatedAt a; UpdatedAt := UpdatedAt a;
     Blockchain := Blockchain a; ContractAddress := ContractAddress a;
     TxHash := TxHash a; DocumentsURI := DocumentsURI a;
     ImageURI := ImageURI a; Documents := Documents a;
     TopStakers := TopStakers a |}.

Definition set_CreatedAt (v : Time) (a : Asset) : Asset :=
  {| ID := ID a; Name := Name a; Symbol := Symbol a; Type_ := Type_ a;
     Institution := Institution a; InstitutionAddress := InstitutionAddress a;
     Description := Description a; TotalSupply := TotalSupply a;
     StakedAmount := StakedAmount a; PriceUsd := PriceUsd a;
     AnnualYield := AnnualYield a;
     CreatedAt := v; UpdatedAt := UpdatedAt a;
     Blockchain := Blockchain a; ContractAddress := ContractAddress a;
     TxHash := TxHash a; DocumentsURI := DocumentsURI a;
     ImageURI := ImageURI a; Documents := Documents a;
     TopStakers := TopStakers a |}.

Definition set_UpdatedAt (v : Time) (a : Asset) : Asset :=
  {| ID := ID a; Name := Name a; Symbol := Symbol a; Type_ := Type_ a;
     Institution := Institution a; InstitutionAddress := InstitutionAddress a;
     Description := Description a; TotalSupply := TotalSupply a;
     StakedAmount := StakedAmount a; PriceUsd := PriceUsd a;
     AnnualYield := AnnualYield a;
     CreatedAt := CreatedAt a; UpdatedAt := v;
     Blockchain := Blockchain a; ContractAddress := ContractAddress a;
     TxHash := TxHash a; DocumentsURI := DocumentsURI a;
     ImageURI := ImageURI a; Documents := Documents a;
     TopStakers := TopStakers a |}.

Definition set_ContractAddress (v : string) (a : Asset) : Asset :=
  {| ID := ID a; Name := Name a; Symbol := Symbol a; Type_ := Type_ a;
     Institution := Institution a; InstitutionAddress := InstitutionAddress a;
     Description := Description a; TotalSupply := TotalSupply a;
     StakedAmount := StakedAmount a; PriceUsd := PriceUsd a;
     AnnualYield := AnnualYield a;
     CreatedAt := CreatedAt a; UpdatedAt := UpdatedAt a;
     Blockchain := Blockchain a; ContractAddress := v;
     TxHash := TxHash a; DocumentsURI := DocumentsURI a;
     ImageURI := ImageURI a; Documents := Documents a;
     TopStakers := TopStakers a |}.

Definition set_TxHash (v : string) (a : Asset) : Asset :=
  {| ID := ID a; Name := Name a; Symbol := Symbol a; Type_ := Type_ a;
     Institution := Institution a; InstitutionAddress := InstitutionAddress a;
     Description := Description a; TotalSupply := TotalSupply a;
     StakedAmount := StakedAmount a; PriceUsd := PriceUsd a;
     AnnualYield := AnnualYield a;
     CreatedAt := CreatedAt a; UpdatedAt := UpdatedAt a;
     Blockchain := Blockchain a; ContractAddress := ContractAddress a;
     TxHash := v; DocumentsURI := DocumentsURI a;
     ImageURI := ImageURI a; Documents := Documents a;
     TopStakers := TopStakers a |}.

(** Assignment of the two fields tagged [gorm:"-"] at once. *)
Definition set_computed (docs : slice Document) (stakers : slice Staker)
    (a : Asset) : Asset :=
  {| ID := ID a; Name := Name a; Symbol := Symbol a; Type_ := Type_ a;
     Institution := Institution a; InstitutionAddress := InstitutionAddress a;
     Description := Description a; TotalSupply := TotalSupply a;
     StakedAmount := StakedAmount a; PriceUsd := PriceUsd a;
     AnnualYield := AnnualYield a;
     CreatedAt := CreatedAt a; UpdatedAt := UpdatedAt a;
     Blockchain := Blockchain a; ContractAddress := ContractAddress a;
     TxHash := TxHash a; DocumentsURI := DocumentsURI a;
     ImageURI := ImageURI a; Documents := docs;
     TopStakers := stakers |}.

(** [func (a *Asset) ToAssetResponse() AssetResponse] *)
Definition ToAssetResponse (a : Asset) : AssetResponse :=
  let availableSupply :=
    let d := wrap64 (TotalSupply a - StakedAmount a) in
    if d <? 0 then 0 else d in
  let marketCap := (float64_of_int64 (TotalSupply a) * PriceUsd a)%float in
  let totalValue := marketCap in
  let stakedValue := (float64_of_int64 (StakedAmount a) * PriceUsd a)%float in
  let availableValue := (float64_of_int64 availableSupply * PriceUsd a)%float in
  let stakingProgress :=
    if TotalSupply a >? 0 then
      ((float64_of_int64 (StakedAmount a) / float64_of_int64 (TotalSupply a))
         * 100)%float
    else 0%float in
  let isContractActive :=
    negb (String.eqb (ContractAddress a) "")
    && negb (String.eqb (ContractAddress a) "pending") in
  let minInvestment := PriceUsd a in
  let maxInvestment :=
    if (availableValue <? minInvestment)%float then minInvestment
    else availableValue in
  {| asset := a;
     AvailableSupply := availableSupply;
     MarketCap := marketCap;
     MinInvestment := minInvestment;
     MaxInvestment := maxInvestment;
     StakingProgress := stakingProgress;
     IsContractActive := isContractActive;
     TotalValue := totalValue;
     StakedValue := stakedValue;
     AvailableValue := availableValue |}.

(** [func (a *Asset) AfterFind(tx *gorm.DB) error]: the hook gorm runs on
    every record a query loads. *)
Definition AfterFind `{Runtime} (a : Asset) : Asset :=
  let docs :=
    if negb (String.eqb (DocumentsURI a) "") then
      slice_of
        [ {| doc_Name := "Supporting Documents";
             doc_Date := Format (CreatedAt a) "2006-01-02";
             doc_URL := DocumentsURI a |} ]
    else slice_of [] in
  let stakers :=
    if StakedAmount a >? 0 then
      let totalStaked := float64_of_int64 (StakedAmount a) in
      slice_of
        [ {| Address := "0x1234...5678";
             Amount := (totalStaked * 0.4)%float; Percentage := 40%float |};
          {| Address := "0xabcd...efgh";
             Amount := (totalStaked * 0.35)%float; Percentage := 35%float |};
          {| Address := "0x9876...5432";
             Amount := (totalStaked * 0.25)%float; Percentage := 25%float |} ]
    else slice_of [] in
  set_computed docs stakers a.

(* ================================================================== *)
(** ** The [assets] table behind [database.GetDB()]                    *)
(* ================================================================== *)

(** What the handlers use of gorm over SQLite, as functions on the rows of
    the one table, kept in insertion order.  The engine itself is taken as
    reliable: a write fails on a constraint only, and a query that finds its
    rows returns them.  (What a handler does when the engine reports an error
    all the same is in the handler, see [GetAllAssets_on].) *)
Definition DB := list Asset.

Inductive DBError :=
| ErrRecordNotFound        (* gorm.ErrRecordNotFound *)
| ErrUniqueConstraint      (* UNIQUE constraint failed: assets.id *)
| ErrEngine.               (* any other error of the engine *)

Inductive result (A : Type) :=
| Ok (a : A)
| Err (e : DBError).
Arguments Ok {A} a.
Arguments Err {A} e.

(** The columns of a record: all fields but the two tagged [gorm:"-"],
    which a row read back holds as nil slices until [AfterFind] runs. *)
Definition columns (a : Asset) : Asset := set_computed nil_slice nil_slice a.

Definition has_id (id : string) (r : Asset) : bool := String.eqb (ID r) id.

(** The [default:] tags and the [autoCreateTime]/[autoUpdateTime] tags, which
    gorm applies on insert to the fields that hold their zero value; the
    values are written back to the Go struct as well. *)
Definition apply_create_tags (now : Time) (a : Asset) : Asset :=
  {| ID := ID a; Name := Name a; Symbol := Symbol a;
     Type_ := if String.eqb (Type_ a) "" then "Real Estate" else Type_ a;
     Institution := Institution a; InstitutionAddress := InstitutionAddress a;
     Description := Description a; TotalSupply := TotalSupply a;
     StakedAmount := if StakedAmount a =? 0 then 0 else StakedAmount a;
     PriceUsd := PriceUsd a;
     AnnualYield :=
       if (AnnualYield a =? 0)%float then 8.5%float else AnnualYield a;
     CreatedAt := if IsZero (CreatedAt a) then now else CreatedAt a;
     UpdatedAt := if IsZero (UpdatedAt a) then now else UpdatedAt a;
     Blockchain := if String.eqb (Blockchain a) "" then "Lisk" else Blockchain a;
     ContractAddress := ContractAddress a;
     TxHash := TxHash a; DocumentsURI := DocumentsURI a;
     ImageURI := ImageURI a; Documents := Documents a;
     TopStakers := TopStakers a |}.

(** [db.Create(&asset)]: [ID] is the primary key ([gorm:"primaryKey"]), so the
    insert fails when a row with that identifier exists.  Returns the struct
    as gorm leaves it, and the table. *)
Definition Create (now : Time) (a : Asset) (db : DB) : result (Asset * DB) :=
  if existsb (has_id (ID a)) db then Err ErrUniqueConstraint
  else
    let a' := apply_create_tags now a in
    Ok (a', db ++ [columns a']).

(** [db.First(&asset, "id = ?", id)]: the first row with that identifier,
    through the [AfterFind] hook. *)
Definition First `{Runtime} (id : string) (db : DB) : result Asset :=
  match find (has_id id) db with
  | Some r => Ok (AfterFind r)
  | None => Err ErrRecordNotFound
  end.

(** [ORDER BY created_at DESC]; rows with equal times stay in insertion
    order. *)
Fixpoint insert_desc (a : Asset) (l : list Asset) : list Asset :=
  match l with
  | [] => [a]
  | b :: t =>
      if CreatedAt b <=? CreatedAt a then a :: b :: t
      else b :: insert_desc a t
  end.

Definition order_created_at_desc (db : DB) : list Asset :=
  fold_right insert_desc [] db.

(** [db.Order("created_at DESC").Find(&assets)] *)
Definition Find `{Runtime} (db : DB) : result (list Asset) :=
  Ok (map AfterFind (order_created_at_desc db)).

(** [db.Save(&asset)]: with a zero primary key gorm inserts; otherwise it
    stamps [UpdatedAt] and updates every column of the rows with that key, and
    inserts when there is none. *)
Definition Save (now : Time) (a : Asset) (db : DB) : result (Asset * DB) :=
  if String.eqb (ID a) "" then Create now a db
  else
    let a' := set_UpdatedAt now a in
    if existsb (has_id (ID a)) db then
      Ok (a', map (fun r => if has_id (ID a) r then columns a' else r) db)
    else Ok (a', db ++ [columns a']).

(* ================================================================== *)
(** ** utils/response.go                                               *)
(* ================================================================== *)

(** What [err.Error()] reports in the envelope. *)
Inductive ErrorDetail :=
| NoDetail                          (* the empty string *)
| BindingError                      (* from [c.BindJSON] *)
| NumError (fn input : string)      (* from [strconv] *)
| StoreError (e : DBError).         (* from gorm *)

Inductive Payload :=
| PNull
| PMint (id : string) (a : AssetResponse)       (* gin.H{"id", "asset"} *)
| PAssets (assets : slice AssetResponse) (total : Z)
                                                (* gin.H{"assets", "total"} *)
| PAsset (a : AssetResponse)
| PStats (s : TokenStats).

(** The envelope [{success, message, data}] with the HTTP status. *)
Record Response := {
  StatusCode : Z;
  Success : bool;
  Message : string;
  Data : Payload;
  ErrorInfo : ErrorDetail
}.

(** Modelled from the spec: [utils.SuccessResponse] is not among the sources;
    the envelope carries [success: true], the message and the payload. *)
Definition SuccessResponse (code : Z) (message : string) (data : Payload)
    : Response :=
  {| StatusCode := code; Success := true; Message := message; Data := data;
     ErrorInfo := NoDetail |}.

(** Modelled from the spec: [utils.ErrorResponse] is not among the sources;
    the envelope carries [success: false], the message, the error detail and
    no payload. *)
Definition ErrorResponse (code : Z) (message : string) (err : ErrorDetail)
    : Response :=
  {| StatusCode := code; Success := false; Message := message; Data := PNull;
     ErrorInfo := err |}.

Definition StatusOK : Z := 200.
Definition StatusCreated : Z := 201.
Definition StatusBadRequest : Z := 400.
Definition StatusNotFound : Z := 404.
Definition StatusInternalServerError : Z := 500.

(* ================================================================== *)
(** ** handlers/asset_handler.go                                       *)
(* ================================================================== *)

(** The [binding:"required"] tag: the validator rejects a field that holds
    the zero value of its type. *)
Definition required_string (s : string) : bool := negb (String.eqb s "").
Definition required_int64 (n : Z) : bool := negb (n =? 0).

(** [c.BindJSON(&req)]: decoding (a body that does not decode arrives as
    [None]), then validation of the binding tags. *)
Definition BindJSON_Mint (body : option MintRequest.t) : option MintRequest.t :=
  match body with
  | None => None
  | Some req =>
      if required_string (MintRequest.Name req)
         && required_string (MintRequest.Symbol req)
         && required_string (MintRequest.InstitutionName req)
         && required_string (MintRequest.TotalSupply req)
         && required_string (MintRequest.ExpectedYield req)
      then Some req else None
  end.

Definition BindJSON_UpdateContract (body : option UpdateContractRequest.t)
    : option UpdateContractRequest.t :=
  match body with
  | None => None
  | Some req =>
      if required_string (UpdateContractRequest.ContractAddress req)
      then Some req else None
  end.

Definition BindJSON_UpdateStaking (body : option UpdateStakingRequest.t)
    : option UpdateStakingRequest.t :=
  match body with
  | None => None
  | Some req =>
      if required_int64 (UpdateStakingRequest.StakedAmount req)
      then Some req else None
  end.

(** [MintAsset] handles POST /api/assets/mint.  [now] is the instant the
    clock shows during the request. *)
Definition MintAsset `{Runtime} (now : Time) (body : option MintRequest.t)
    (db : DB) : Response * DB :=
  match BindJSON_Mint body with
  | None =>
      (ErrorResponse StatusBadRequest "Invalid request data" BindingError, db)
  | Some req =>
  match ParseInt (MintRequest.TotalSupply req) with
  | None =>
      (ErrorResponse StatusBadRequest "Invalid total supply"
         (NumError "ParseInt" (MintRequest.TotalSupply req)), db)
  | Some totalSupply =>
  match ParseFloat (MintRequest.ExpectedYield req) with
  | None =>
      (ErrorResponse StatusBadRequest "Invalid expected yield"
         (NumError "ParseFloat" (MintRequest.ExpectedYield req)), db)
  | Some expectedYield =>
  match (if negb (String.eqb (MintRequest.PricePerRWA req) "")
         then ParseFloat (MintRequest.PricePerRWA req)
         else Some 1%float) with
  | None =>
      (ErrorResponse StatusBadRequest "Invalid price per RWA"
         (NumError "ParseFloat" (MintRequest.PricePerRWA req)), db)
  | Some pricePerRWA =>
  let contractAddress :=
    if String.eqb (MintRequest.ContractAddress req) "" then "pending"
    else MintRequest.ContractAddress req in
  let asset :=
    {| ID := String.append "asset_" (itoa (Unix now));
       Name := MintRequest.Name req;
       Symbol := MintRequest.Symbol req;
       Type_ := "Real Estate";
       Institution := MintRequest.InstitutionName req;
       InstitutionAddress := MintRequest.InstitutionAddress req;
       Description := MintRequest.Description req;
       TotalSupply := totalSupply;
       StakedAmount := 0;
       PriceUsd := pricePerRWA;
       AnnualYield := expectedYield;
       CreatedAt := zeroTime;
       UpdatedAt := zeroTime;
       Blockchain := "Lisk";
       ContractAddress := contractAddress;
       TxHash := MintRequest.TxHash req;
       DocumentsURI := MintRequest.DocumentsURI req;
       ImageURI := MintRequest.ImageURI req;
       Documents := nil_slice;
       TopStakers := nil_slice |} in
  match Create now asset db with
  | Err e =>
      (ErrorResponse StatusInternalServerError "Failed to save asset"
         (StoreError e), db)
  | Ok (asset, db') =>
      let assetResponse := ToAssetResponse asset in
      (SuccessResponse StatusCreated "Asset minted successfully"
         (PMint (ID asset) assetResponse), db')
  end end end end end.

(** The body of [GetAllAssets], given what the query returned:
    [assetResponses] is declared without a value, so it is the nil slice
    until the loop appends to it. *)
Definition GetAllAssets_on (found : result (list Asset)) (db : DB)
    : Response * DB :=
  match found with
  | Err e =>
      (ErrorResponse StatusInternalServerError "Failed to fetch assets"
         (StoreError e), db)
  | Ok assets =>
      let assetResponses :=
        fold_left (fun acc asset => slice_append acc (ToAssetResponse asset))
                  assets nil_slice in
      (SuccessResponse StatusOK "Assets fetched successfully"
         (PAssets assetResponses (len assetResponses)), db)
  end.

(** [GetAllAssets] handles GET /api/assets. *)
Definition GetAllAssets `{Runtime} (db : DB) : Response * DB :=
  GetAllAssets_on (Find db) db.

(** [GetAssetByID] handles GET /api/assets/:id. *)
Definition GetAssetByID `{Runtime} (id : string) (db : DB) : Response * DB :=
  match First id db with
  | Err e =>
      (ErrorResponse StatusNotFound "Asset not found" (StoreError e), db)
  | Ok asset =>
      (SuccessResponse StatusOK "Asset fetched successfully"
         (PAsset (ToAssetResponse asset)), db)
  end.

(** [UpdateContractAddress] handles PATCH /api/assets/:id/contract. *)
Definition UpdateContractAddress `{Runtime} (now : Time) (id : string)
    (body : option UpdateContractRequest.t) (db : DB) : Response * DB :=
  match BindJSON_UpdateContract body with
  | None =>
      (ErrorResponse StatusBadRequest "Invalid request data" BindingError, db)
  | Some req =>
  match First id db with
  | Err e =>
      (ErrorResponse StatusNotFound "Asset not found" (StoreError e), db)
  | Ok asset =>
  let asset :=
    set_ContractAddress (UpdateContractRequest.ContractAddress req) asset in
  let asset :=
    if negb (String.eqb (UpdateContractRequest.TxHash req) "")
    then set_TxHash (UpdateContractRequest.TxHash req) asset
    else asset in
  let asset := set_UpdatedAt now asset in
  match Save now asset db with
  | Err e =>
      (ErrorResponse StatusInternalServerError "Failed to update asset"
         (StoreError e), db)
  | Ok (asset, db') =>
      (SuccessResponse StatusOK "Contract address updated successfully"
         (PAsset (ToAssetResponse asset)), db')
  end end end.

(** [GetAssetStats] handles GET /api/assets/:id/stats. *)
Definition GetAssetStats `{Runtime} (id : string) (db : DB) : Response * DB :=
  match First id db with
  | Err e =>
      (ErrorResponse StatusNotFound "Asset not found" (StoreError e), db)
  | Ok asset =>
      let stats :=
        {| ts_TotalSupply := TotalSupply asset;
           ts_CirculatingSupply := TotalSupply asset;
           ts_HolderCount := 3;
           ts_Price := PriceUsd asset;
           ts_MarketCap :=
             (float64_of_int64 (TotalSupply asset) * PriceUsd asset)%float |} in
      (SuccessResponse StatusOK "Asset stats fetched successfully"
         (PStats stats), db)
  end.

(** [UpdateAssetStaking] handles PATCH /api/assets/:id/staking. *)
Definition UpdateAssetStaking `{Runtime} (now : Time) (id : string)
    (body : option UpdateStakingRequest.t) (db : DB) : Response * DB :=
  match BindJSON_UpdateStaking body with
  | None =>
      (ErrorResponse StatusBadRequest "Invalid request data" BindingError, db)
  | Some req =>
  match First id db with
  | Err e =>
      (ErrorResponse StatusNotFound "Asset not found" (StoreError e), db)
  | Ok asset =>
  if UpdateStakingRequest.StakedAmount req >? TotalSupply asset then
    (ErrorResponse StatusBadRequest "Staked amount cannot exceed total supply"
       NoDetail, db)
  else
  let asset := set_StakedAmount (UpdateStakingRequest.StakedAmount req) asset in
  let asset := set_UpdatedAt now asset in
  match Save now asset db with
  | Err e =>
      (ErrorResponse StatusInternalServerError "Failed to update staking"
         (StoreError e), db)
  | Ok (asset, db') =>
      (SuccessResponse StatusOK "Staking updated successfully"
         (PAsset (ToAssetResponse asset)), db')
  end end end.

(* ================================================================== *)
(** ** The service as a transition system                              *)
(* ================================================================== *)

(** The asset routes registered by [setupRoutes]. *)
Inductive Request :=
| GET_assets
| POST_assets_mint (body : option MintRequest.t)
| GET_asset (id : string)
| PATCH_asset_contract (id : string) (body : option UpdateContractRequest.t)
| GET_asset_stats (id : string)
| PATCH_asset_staking (id : string) (body : option UpdateStakingRequest.t).

Definition handle `{Runtime} (now : Time) (r : Request) (db : DB)
    : Response * DB :=
  match r with
  | GET_assets => GetAllAssets db
  | POST_assets_mint body => MintAsset now body db
  | GET_asset id => GetAssetByID id db
  | PATCH_asset_contract id body => UpdateContractAddress now id body db
  | GET_asset_stats id => GetAssetStats id db
  | PATCH_asset_staking id body => UpdateAssetStaking now id body db
  end.

(** Serving a sequence of requests, each at its own instant. *)
Fixpoint serve `{Runtime} (trace : list (Time * Request)) (db : DB) : DB :=
  match trace with
  | [] => db
  | (now, r) :: rest => serve rest (snd (handle now r db))
  end.

(** The store states the service can be in: the table is empty after the
    migration of a fresh database, and changes through the handlers only. *)
Inductive reachable `{Runtime} : DB -> Prop :=
| reachable_init : reachable []
| reachable_step now r db :
    reachable db -> reachable (snd (handle now r db)).


(** The record of the table with a given identifier. *)
Definition lookup (id : string) (db : DB) : option Asset := find (has_id id) db.

(* ================================================================== *)
(** ** A runtime for the worked examples                               *)
(* ================================================================== *)

Definition pad2 (n : Z) : string :=
  if n <? 10 then String.append "0" (itoa n) else itoa n.

Definition pad4 (n : Z) : string :=
  if n <? 10 then String.append "000" (itoa n)
  else if n <? 100 then String.append "00" (itoa n)
  else if n <? 1000 then String.append "0" (itoa n)
  else itoa n.

(** The civil date (UTC, proleptic Gregorian) of a day count from the epoch. *)
Definition civil_from_days (days : Z) : Z * Z * Z :=
  let z := days + 719468 in
  let era := z / 146097 in
  let doe := z - era * 146097 in
  let yoe := (doe - doe / 1460 + doe / 36524 - doe / 146096) / 365 in
  let doy := doe - (365 * yoe + yoe / 4 - yoe / 100) in
  let mp := (5 * doy + 2) / 153 in
  let d := doy - (153 * mp + 2) / 5 + 1 in
  let m := if mp <? 10 then mp + 3 else mp - 9 in
  let y := yoe + era * 400 + (if m <=? 2 then 1 else 0) in
  (y, m, d).

(** [Format] for the one layout the program uses, in UTC. *)
Definition format_utc (t : Time) (layout : string) : string :=
  if String.eqb layout "2006-01-02" then
    let '(y, m, d) := civil_from_days (Unix t / 86400) in
    String.append (pad4 y)
      (String.append "-" (String.append (pad2 m) (String.append "-" (pad2 d))))
  else layout.

(** [ParseFloat] on the literals of the examples. *)
Definition parse_float_examples (s : string) : option float :=
  if String.eqb s "8.5" then Some 8.5%float
  else if String.eqb s "1.0" then Some 1%float
  else if String.eqb s "100" then Some 100%float
  else None.

Definition example_runtime : Runtime :=
  {| ParseFloat := parse_float_examples; Format := format_utc |}.

(** The request of the spec's example: total supply "1000", yield "8.5", no
    price and no contract address. *)
Definition example_mint : MintRequest.t :=
  {| MintRequest.Name := "Luxury Villa Bali";
     MintRequest.Symbol := "LVB";
     MintRequest.InstitutionName := "PropTech Indonesia";
     MintRequest.InstitutionAddress := "";
     MintRequest.Description := "";
     MintRequest.TotalSupply := "1000";
     MintRequest.ExpectedYield := "8.5";
     MintRequest.PricePerRWA := "";
     MintRequest.ContractAddress := "";
     MintRequest.TxHash := "";
     MintRequest.DocumentsURI := "";
     MintRequest.ImageURI := "" |}.

Definition with_TotalSupply (s : string) (r : MintRequest.t) : MintRequest.t :=
  {| MintRequest.Name := MintRequest.Name r;
     MintRequest.Symbol := MintRequest.Symbol r;
     MintRequest.InstitutionName := MintRequest.InstitutionName r;
     MintRequest.InstitutionAddress := MintRequest.InstitutionAddress r;
     MintRequest.Description := MintRequest.Description r;
     MintRequest.TotalSupply := s;
     MintRequest.ExpectedYield := MintRequest.ExpectedYield r;
     MintRequest.PricePerRWA := MintRequest.PricePerRWA r;
     MintRequest.ContractAddress := MintRequest.ContractAddress r;
     MintRequest.TxHash := MintRequest.TxHash r;
     MintRequest.DocumentsURI := MintRequest.DocumentsURI r;
     MintRequest.ImageURI := MintRequest.ImageURI r |}.

Definition with_DocumentsURI (s : string) (r : MintRequest.t) : MintRequest.t :=
  {| MintRequest.Name := MintRequest.Name r;
     MintRequest.Symbol := MintRequest.Symbol r;
     MintRequest.InstitutionName := MintRequest.InstitutionName r;
     MintRequest.InstitutionAddress := MintRequest.InstitutionAddress r;
     MintRequest.Description := MintRequest.Description r;
     MintRequest.TotalSupply := MintRequest.TotalSupply r;
     MintRequest.ExpectedYield := MintRequest.ExpectedYield r;
     MintRequest.PricePerRWA := MintRequest.PricePerRWA r;
     MintRequest.ContractAddress := MintRequest.ContractAddress r;
     MintRequest.TxHash := MintRequest.TxHash r;
     MintRequest.DocumentsURI := s;
     MintRequest.ImageURI := MintRequest.ImageURI r |}.

(** An instant on 2023-11-14 (UTC). *)
Definition example_now : Time := 1700000000 * 1000000000.

(** The table after the example mint. *)
Definition example_db : DB :=
  snd (@MintAsset example_runtime example_now (Some example_mint) []).

(* ================================================================== *)
(** ** The invariant of the table                                      *)
(* ================================================================== *)

(** A row holds columns only, has a non-empty key, and its staked amount is
    zero or within the total supply. *)
Definition row_ok (r : Asset) : Prop :=
  columns r = r /\ ID r <> "" /\
  (StakedAmount r = 0 \/ StakedAmount r <= TotalSupply r).

Definition store_ok (db : DB) : Prop :=
  NoDup (map ID db) /\ Forall row_ok db.

(** The update both mutating handlers perform on the table: the rows with
    the key are replaced, the others stay. *)
Definition replace_row (id : string) (r' : Asset) (db : DB) : DB :=
  map (fun r => if has_id id r then r' else r) db.

(** The body [{"stakedAmount": v}] as decoded; a body without the key
    decodes to [staking_body 0]. *)
Definition staking_body (v : Z) : option UpdateStakingRequest.t :=
  Some {| UpdateStakingRequest.StakedAmount := v |}.

(** The body [{"contractAddress": addr, "txHash": tx}] as decoded. *)
Definition contract_body (addr tx : string) : option UpdateContractRequest.t :=
  Some {| UpdateContractRequest.ContractAddress := addr;
          UpdateContractRequest.TxHash := tx |}.

(** The row the example mint stores. *)
Definition example_asset : Asset :=
  {| ID := "asset_1700000000";
     Name := "Luxury Villa Bali";
     Symbol := "LVB";
     Type_ := "Real Estate";
     Institution := "PropTech Indonesia";
     InstitutionAddress := "";
     Description := "";
     TotalSupply := 1000;
     StakedAmount := 0;
     PriceUsd := 1;
     AnnualYield := 8.5;
     CreatedAt := example_now;
     UpdatedAt := example_now;
     Blockchain := "Lisk";
     ContractAddress := "pending";
     TxHash := "";
     DocumentsURI := "";
     ImageURI := "";
     Documents := nil_slice;
     TopStakers := nil_slice |}.

(** The table after staking 250 units of the example asset, five seconds
    later. *)
Definition example_later : Time := example_now + 5 * 1000000000.

Definition example_db_staked : DB :=
  snd (@UpdateAssetStaking example_runtime example_later "asset_1700000000"
         (staking_body 250) example_db).

(** The documents list the views are to carry: one entry, with the fixed
    label, the creation date and the URI, when the record has a documents
    URI; none otherwise.  This is the list [AfterFind] assigns. *)
Definition documents_of `{Runtime} (a : Asset) : slice Document :=
  if String.eqb (DocumentsURI a) "" then slice_of []
  else slice_of [ {| doc_Name := "Supporting Documents";
                     doc_Date := Format (CreatedAt a) "2006-01-02";
                     doc_URL := DocumentsURI a |} ].

(** The asset view a response carries, for the payloads with one view. *)
Definition view_of (resp : Response) : option AssetResponse :=
  match Data resp with
  | PMint _ v => Some v
  | PAsset v => Some v
  | _ => None
  end.

(* ================================================================== *)
(** ** Rounding, for the bounds on float results                       *)
(* ================================================================== *)

(** The position of a shift record of [SpecFloat], in quarters of the unit
    of its mantissa: the two bits that follow the mantissa tell whether the
    value lies on the mantissa, below, on or above the half. *)
Definition code (r : shr_record) : Z :=
  4 * shr_m r + (if shr_r r then 2 else 0) + (if shr_s r then 1 else 0).

(** Round to nearest, ties to even, of a shift record. *)
Definition rne (r : shr_record) : Z :=
  round_nearest_even (shr_m r) (loc_of_shr_record r).

Definition exact_record (m : Z) : shr_record :=
  {| shr_m := m; shr_r := false; shr_s := false |}.

(** [x] is +0 or a positive finite float of value at most [mV * 2^eV]. *)
Definition sf_le (x : spec_float) (mV eV : Z) : Prop :=
  match x with
  | S754_zero false => True
  | S754_finite false m e => e <= eV /\ Z.pos m <= mV * 2 ^ (eV - e)
  | _ => False
  end.

(** The binary64 value of a non-negative integer, as [of_uint63] gives it. *)
Definition fl (n : Z) : spec_float := binary_normalize prec emax n 0 false.

(** The mantissa of [fl n] before the last normalisation. *)
Definition mu (n : Z) : Z :=
  let d := Z.log2 n + 1 in
  if d <=? 53 then n * 2 ^ (53 - d)
  else rne (fst (shr (exact_record n) 0 (d - 53))).

(** The order of shift records with non-negative mantissas. *)
Definition le_code (a b : shr_record) : Prop :=
  0 <= shr_m a /\ 0 <= shr_m b /\ code a <= code b.

(* ================================================================== *)
(** ** Notions for the properties of the handlers                      *)
(* ================================================================== *)

(** The order [GetAllAssets] asks of the store: no later row is newer. *)
Definition newest_first (a b : Asset) : Prop := CreatedAt b <= CreatedAt a.

(** A record with the four fields the update handlers assign put back to
    fixed values: two records agree on every other field exactly when these
    are equal. *)
Definition without_mutable (r : Asset) : Asset :=
  set_UpdatedAt 0 (set_TxHash "" (set_ContractAddress "" (set_StakedAmount 0 r))).

(** The requests that only read. *)
Definition read_only (r : Request) : bool :=
  match r with
  | GET_assets | GET_asset _ | GET_asset_stats _ => true
  | _ => false
  end.

(** The statistics a response carries. *)
Definition stats_of (resp : Response) : option TokenStats :=
  match Data resp with
  | PStats s => Some s
  | _ => None
  end.

(** A float that is neither NaN nor infinite, read off its [spec_float]. *)
Definition sf_finite (x : spec_float) : Prop :=
  match x with
  | S754_zero _ | S754_finite _ _ _ => True
  | _ => False
  end.

(** The record an update request addresses. *)
Definition target (r : Request) : option string :=
  match r with
  | PATCH_asset_contract id _ | PATCH_asset_staking id _ => Some id
  | _ => None
  end.

(** The number of mint requests of a sequence that are answered with a
    success envelope, when the sequence is served from the table [db]. *)
Fixpoint created `{Runtime} (trace : list (Time * Request)) (db : DB) : nat :=
  match trace with
  | [] => 0%nat
  | (now, r) :: rest =>
      let out := handle now r db in
      ((match r with
        | POST_assets_mint _ => if Success (fst out) then 1 else 0
        | _ => 0
        end) + created rest (snd out))%nat
  end.

(** Case analysis on every test a handler makes. *)
Ltac handler_cases :=
  repeat match goal with
         | |- context [match ?x with _ => _ end] => destruct x
         end.

(* ================================================================== *)
(** * Properties                                                       *)
(* ================================================================== *)

(** ** The table operations *)

Lemma has_id_true id r : has_id id r = true <-> ID r = id.
Proof. unfold has_id. apply String.eqb_eq. Qed.

Lemma has_id_false id r : has_id id r = false <-> ID r <> id.
Proof. unfold has_id. apply String.eqb_neq. Qed.

Lemma existsb_has_id id db :
  existsb (has_id id) db = true <-> In id (map ID db).
Proof.
  rewrite existsb_exists, in_map_iff.
  split; intros [r [H1 H2]]; exists r.
  - apply has_id_true in H2. auto.
  - split; [assumption | now apply has_id_true].
Qed.

Lemma existsb_has_id_false id db :
  existsb (has_id id) db = false <-> ~ In id (map ID db).
Proof.
  rewrite <- existsb_has_id. destruct (existsb (has_id id) db); split;
    congruence.
Qed.

Lemma find_has_id id db r :
  find (has_id id) db = Some r -> In r db /\ ID r = id.
Proof.
  intros Hf. apply find_some in Hf. destruct Hf as [Hin Hid].
  split; [assumption | now apply has_id_true].
Qed.

Lemma find_has_id_none id db :
  find (has_id id) db = None <-> ~ In id (map ID db).
Proof.
  split.
  - intros Hf Hin. apply in_map_iff in Hin. destruct Hin as [r [Hid Hin]].
    apply (find_none _ _ Hf) in Hin. apply has_id_false in Hin. congruence.
  - intros Hn. destruct (find (has_id id) db) as [r|] eqn:Hf; [|reflexivity].
    apply find_has_id in Hf. destruct Hf as [Hin Hid].
    exfalso. apply Hn. apply in_map_iff. eauto.
Qed.

Lemma columns_idem a : columns (columns a) = columns a.
Proof. reflexivity. Qed.

Lemma columns_fixed a :
  columns a = a <-> Documents a = nil_slice /\ TopStakers a = nil_slice.
Proof.
  destruct a; unfold columns, set_computed; simpl. split.
  - intros H. injection H. auto.
  - intros [-> ->]. reflexivity.
Qed.

Lemma map_ID_replace_row id r' db :
  ID r' = id -> map ID (replace_row id r' db) = map ID db.
Proof.
  intros Hid. unfold replace_row. rewrite map_map. apply map_ext.
  intros r. destruct (has_id id r) eqn:E; [|reflexivity].
  apply has_id_true in E. congruence.
Qed.

Lemma in_replace_row id r' db x :
  In x (replace_row id r' db) -> x = r' \/ (In x db /\ ID x <> id).
Proof.
  unfold replace_row. rewrite in_map_iff. intros [r [Hx Hin]].
  destruct (has_id id r) eqn:E.
  - left. congruence.
  - right. subst x. split; [assumption | now apply has_id_false].
Qed.

Lemma store_ok_nil : store_ok [].
Proof. split; constructor. Qed.

Lemma store_ok_append db r :
  store_ok db -> row_ok r -> ~ In (ID r) (map ID db) -> store_ok (db ++ [r]).
Proof.
  intros [Hnd Hall] Hr Hfresh. split.
  - rewrite map_app. simpl.
    apply NoDup_app; [assumption | repeat constructor; simpl; tauto |].
    intros x Hx [<- | []]. contradiction.
  - apply Forall_app. split; [assumption | constructor; [assumption | constructor]].
Qed.

Lemma store_ok_replace_row id r' db :
  store_ok db -> row_ok r' -> ID r' = id -> store_ok (replace_row id r' db).
Proof.
  intros [Hnd Hall] Hr Hid. split.
  - now rewrite map_ID_replace_row.
  - apply Forall_forall. intros x Hx.
    apply in_replace_row in Hx. destruct Hx as [-> | [Hx _]]; [assumption|].
    rewrite Forall_forall in Hall. auto.
Qed.

(** In a table with unique keys, the record of a key is the one row with it. *)
Lemma lookup_unique db r :
  NoDup (map ID db) -> In r db -> lookup (ID r) db = Some r.
Proof.
  unfold lookup. induction db as [|x db IH]; simpl; intros Hnd Hin; [easy|].
  inversion Hnd as [|? ? Hx Hnd']; subst.
  destruct (has_id (ID r) x) eqn:E.
  - apply has_id_true in E. destruct Hin as [-> | Hin]; [reflexivity|].
    exfalso. apply Hx. rewrite E. now apply in_map.
  - apply has_id_false in E. destruct Hin as [-> | Hin]; [congruence|].
    now apply IH.
Qed.

Lemma lookup_replace_row id r' db :
  ID r' = id -> In id (map ID db) -> lookup id (replace_row id r' db) = Some r'.
Proof.
  unfold lookup, replace_row. intros Hid.
  induction db as [|x db IH]; simpl; [easy|].
  intros Hin. destruct (has_id id x) eqn:E.
  - assert (E' : has_id id r' = true) by now apply has_id_true.
    now rewrite E'.
  - rewrite E. apply IH. destruct Hin as [Hx | Hin]; [|assumption].
    apply has_id_false in E. congruence.
Qed.

Lemma lookup_replace_row_other id id' r' db :
  ID r' = id -> id' <> id ->
  lookup id' (replace_row id r' db) = lookup id' db.
Proof.
  unfold lookup, replace_row. intros Hid Hne.
  induction db as [|x db IH]; simpl; [reflexivity|].
  assert (E2 : has_id id' r' = false) by (apply has_id_false; congruence).
  destruct (has_id id x) eqn:E.
  - apply has_id_true in E.
    assert (E1 : has_id id' x = false) by (apply has_id_false; congruence).
    now rewrite E1, E2.
  - destruct (has_id id' x); [reflexivity | assumption].
Qed.

Lemma insert_desc_length a l :
  List.length (insert_desc a l) = S (List.length l).
Proof.
  induction l as [|b l IH]; [reflexivity|]. cbn [insert_desc].
  destruct (CreatedAt b <=? CreatedAt a); cbn [List.length]; [reflexivity|].
  now rewrite IH.
Qed.

Lemma order_created_at_desc_length db :
  List.length (order_created_at_desc db) = List.length db.
Proof.
  unfold order_created_at_desc. induction db as [|a db IH]; [reflexivity|].
  cbn [fold_right List.length]. now rewrite insert_desc_length, IH.
Qed.

(** ** The handlers, case by case *)

Section Handlers.
Context `{RT : Runtime}.

Lemma BindJSON_Mint_some body req :
  BindJSON_Mint body = Some req -> body = Some req.
Proof.
  unfold BindJSON_Mint. destruct body as [r|]; [|discriminate].
  destruct (_ && _); [|discriminate]. congruence.
Qed.

Lemma First_ok id db a :
  First id db = Ok a ->
  exists r, lookup id db = Some r /\ a = AfterFind r.
Proof.
  unfold First, lookup. destruct (find (has_id id) db) as [r|];
    [|discriminate].
  intros H. injection H as <-. eauto.
Qed.

Lemma First_lookup id db r :
  lookup id db = Some r -> First id db = Ok (AfterFind r).
Proof. unfold First, lookup. now intros ->. Qed.

Lemma First_missing id db :
  lookup id db = None -> First id db = Err ErrRecordNotFound.
Proof. unfold First, lookup. now intros ->. Qed.

Lemma Save_found now a db :
  ID a <> "" -> In (ID a) (map ID db) ->
  Save now a db =
  Ok (set_UpdatedAt now a,
      replace_row (ID a) (columns (set_UpdatedAt now a)) db).
Proof.
  intros Hne Hin. unfold Save.
  apply String.eqb_neq in Hne. rewrite Hne.
  apply existsb_has_id in Hin. now rewrite Hin.
Qed.

Lemma lookup_in id db r : lookup id db = Some r -> In r db /\ ID r = id.
Proof. apply find_has_id. Qed.

Lemma lookup_in_ids id db r : lookup id db = Some r -> In id (map ID db).
Proof.
  intros H. apply lookup_in in H. destruct H as [Hin <-]. now apply in_map.
Qed.

(** What a mint that succeeds did. *)
Lemma MintAsset_success now body db resp db' :
  MintAsset now body db = (resp, db') ->
  Success resp = true ->
  exists req totalSupply expectedYield a,
    body = Some req /\
    ParseInt (MintRequest.TotalSupply req) = Some totalSupply /\
    ParseFloat (MintRequest.ExpectedYield req) = Some expectedYield /\
    (if String.eqb (MintRequest.PricePerRWA req) "" then Some 1%float
     else ParseFloat (MintRequest.PricePerRWA req)) = Some (PriceUsd a) /\
    ID a = String.append "asset_" (itoa (Unix now)) /\
    TotalSupply a = totalSupply /\
    StakedAmount a = 0 /\
    ContractAddress a =
      (if String.eqb (MintRequest.ContractAddress req) "" then "pending"
       else MintRequest.ContractAddress req) /\
    DocumentsURI a = MintRequest.DocumentsURI req /\
    CreatedAt a = now /\
    columns a = a /\
    ~ In (ID a) (map ID db) /\
    resp = SuccessResponse StatusCreated "Asset minted successfully"
             (PMint (ID a) (ToAssetResponse a)) /\
    db' = db ++ [a].
Proof.
  unfold MintAsset.
  destruct (BindJSON_Mint body) as [req|] eqn:Hb;
    [|intros H; injection H as <- <-; discriminate].
  apply BindJSON_Mint_some in Hb.
  destruct (ParseInt _) as [totalSupply|] eqn:Hts;
    [|intros H; injection H as <- <-; discriminate].
  destruct (ParseFloat (MintRequest.ExpectedYield req)) as [ey|] eqn:Hey;
    [|intros H; injection H as <- <-; discriminate].
  destruct (String.eqb (MintRequest.PricePerRWA req) "") eqn:Hp; simpl negb; cbv iota.
  - unfold Create. cbn [ID].
    destruct (existsb _ db) eqn:Hex;
      [intros H; injection H as <- <-; discriminate|].
    intros H _. injection H as <- <-.
    apply existsb_has_id_false in Hex.
    eexists req, totalSupply, ey, _.
    repeat split; try reflexivity; try eassumption.
    now rewrite Hp.
  - destruct (ParseFloat (MintRequest.PricePerRWA req)) as [p|] eqn:Hpp;
      [|intros H; injection H as <- <-; discriminate].
    unfold Create. cbn [ID].
    destruct (existsb _ db) eqn:Hex;
      [intros H; injection H as <- <-; discriminate|].
    intros H _. injection H as <- <-.
    apply existsb_has_id_false in Hex.
    eexists req, totalSupply, ey, _.
    repeat split; try reflexivity; try eassumption.
    now rewrite Hp.
Qed.

(** A mint that fails leaves the table as it was. *)
Lemma MintAsset_failure now body db resp db' :
  MintAsset now body db = (resp, db') ->
  Success resp = false -> db' = db.
Proof.
  unfold MintAsset.
  destruct (BindJSON_Mint body) as [req|];
    [|intros H; now injection H as <- <-].
  destruct (ParseInt _); [|intros H; now injection H as <- <-].
  destruct (ParseFloat (MintRequest.ExpectedYield req));
    [|intros H; now injection H as <- <-].
  destruct (if negb _ then _ else _); [|intros H; now injection H as <- <-].
  destruct (Create _ _ _) as [[a d]|e]; intros H; injection H as <- <-;
    [discriminate | reflexivity].
Qed.

Lemma UpdateAssetStaking_malformed now id db :
  UpdateAssetStaking now id None db =
  (ErrorResponse StatusBadRequest "Invalid request data" BindingError, db).
Proof. reflexivity. Qed.

Lemma UpdateAssetStaking_zero now id db :
  UpdateAssetStaking now id (staking_body 0) db =
  (ErrorResponse StatusBadRequest "Invalid request data" BindingError, db).
Proof. reflexivity. Qed.

Lemma BindJSON_UpdateStaking_nonzero v :
  v <> 0 ->
  BindJSON_UpdateStaking (staking_body v) =
  Some {| UpdateStakingRequest.StakedAmount := v |}.
Proof.
  intros Hv. unfold BindJSON_UpdateStaking, staking_body, required_int64.
  cbn [UpdateStakingRequest.StakedAmount].
  apply Z.eqb_neq in Hv. now rewrite Hv.
Qed.

Lemma UpdateAssetStaking_not_found now id v db :
  v <> 0 -> lookup id db = None ->
  UpdateAssetStaking now id (staking_body v) db =
  (ErrorResponse StatusNotFound "Asset not found"
     (StoreError ErrRecordNotFound), db).
Proof.
  intros Hv Hl. unfold UpdateAssetStaking.
  rewrite (BindJSON_UpdateStaking_nonzero v Hv), (First_missing _ _ Hl).
  reflexivity.
Qed.

Lemma UpdateAssetStaking_exceeds now id v db r :
  v <> 0 -> lookup id db = Some r -> v > TotalSupply r ->
  UpdateAssetStaking now id (staking_body v) db =
  (ErrorResponse StatusBadRequest "Staked amount cannot exceed total supply"
     NoDetail, db).
Proof.
  intros Hv Hl Hgt. unfold UpdateAssetStaking.
  rewrite (BindJSON_UpdateStaking_nonzero v Hv), (First_lookup _ _ _ Hl).
  cbn [UpdateStakingRequest.StakedAmount].
  replace (v >? TotalSupply (AfterFind r)) with true; [reflexivity|].
  symmetry. apply Z.gtb_lt. change (TotalSupply (AfterFind r)) with (TotalSupply r).
  lia.
Qed.

Lemma UpdateAssetStaking_accepts now id v db r :
  v <> 0 -> lookup id db = Some r -> id <> "" -> v <= TotalSupply r ->
  UpdateAssetStaking now id (staking_body v) db =
  (SuccessResponse StatusOK "Staking updated successfully"
     (PAsset (ToAssetResponse
                (set_UpdatedAt now (set_StakedAmount v (AfterFind r))))),
   replace_row id (columns (set_UpdatedAt now (set_StakedAmount v r))) db).
Proof.
  intros Hv Hl Hid Hle. unfold UpdateAssetStaking.
  rewrite (BindJSON_UpdateStaking_nonzero v Hv), (First_lookup _ _ _ Hl).
  cbn [UpdateStakingRequest.StakedAmount].
  replace (v >? TotalSupply (AfterFind r)) with false.
  2:{ symmetry. rewrite Z.gtb_ltb. apply Z.ltb_ge.
      change (TotalSupply (AfterFind r)) with (TotalSupply r). lia. }
  destruct (lookup_in _ _ _ Hl) as [Hin Hr].
  rewrite Save_found.
  - cbn [ID set_UpdatedAt set_StakedAmount AfterFind set_computed]. rewrite Hr.
    reflexivity.
  - cbn [ID set_UpdatedAt set_StakedAmount AfterFind set_computed]. congruence.
  - cbn [ID set_UpdatedAt set_StakedAmount AfterFind set_computed]. rewrite Hr.
    eapply lookup_in_ids; eauto.
Qed.

(** With an empty key (no such row in a table the service built) gorm's
    [Save] turns into an insert, which the primary key refuses. *)
Lemma UpdateAssetStaking_empty_key now v db r :
  v <> 0 -> lookup "" db = Some r -> v <= TotalSupply r ->
  UpdateAssetStaking now "" (staking_body v) db =
  (ErrorResponse StatusInternalServerError "Failed to update staking"
     (StoreError ErrUniqueConstraint), db).
Proof.
  intros Hv Hl Hle. unfold UpdateAssetStaking.
  rewrite (BindJSON_UpdateStaking_nonzero v Hv), (First_lookup _ _ _ Hl).
  cbn [UpdateStakingRequest.StakedAmount].
  replace (v >? TotalSupply (AfterFind r)) with false.
  2:{ symmetry. rewrite Z.gtb_ltb. apply Z.ltb_ge.
      change (TotalSupply (AfterFind r)) with (TotalSupply r). lia. }
  destruct (lookup_in _ _ _ Hl) as [Hin Hr].
  unfold Save, Create.
  cbn [ID set_UpdatedAt set_StakedAmount AfterFind set_computed]. rewrite Hr.
  cbn [String.eqb].
  pose proof (lookup_in_ids _ _ _ Hl) as Hex. apply existsb_has_id in Hex.
  now rewrite Hex.
Qed.

(** The record as [UpdateContractAddress] rewrites it before saving. *)
Lemma UpdateContractAddress_malformed now id db :
  UpdateContractAddress now id None db =
  (ErrorResponse StatusBadRequest "Invalid request data" BindingError, db).
Proof. reflexivity. Qed.

Lemma UpdateContractAddress_empty_address now id tx db :
  UpdateContractAddress now id (contract_body "" tx) db =
  (ErrorResponse StatusBadRequest "Invalid request data" BindingError, db).
Proof. reflexivity. Qed.

Lemma BindJSON_UpdateContract_nonempty addr tx :
  addr <> "" ->
  BindJSON_UpdateContract (contract_body addr tx) =
  Some {| UpdateContractRequest.ContractAddress := addr;
          UpdateContractRequest.TxHash := tx |}.
Proof.
  intros Ha. unfold BindJSON_UpdateContract, contract_body, required_string.
  cbn [UpdateContractRequest.ContractAddress].
  apply String.eqb_neq in Ha. now rewrite Ha.
Qed.

Lemma UpdateContractAddress_not_found now id addr tx db :
  addr <> "" -> lookup id db = None ->
  UpdateContractAddress now id (contract_body addr tx) db =
  (ErrorResponse StatusNotFound "Asset not found"
     (StoreError ErrRecordNotFound), db).
Proof.
  intros Ha Hl. unfold UpdateContractAddress.
  rewrite (BindJSON_UpdateContract_nonempty _ _ Ha), (First_missing _ _ Hl).
  reflexivity.
Qed.

Lemma UpdateContractAddress_accepts now id addr tx db r :
  addr <> "" -> lookup id db = Some r -> id <> "" ->
  let tx' := if String.eqb tx "" then TxHash r else tx in
  UpdateContractAddress now id (contract_body addr tx) db =
  (SuccessResponse StatusOK "Contract address updated successfully"
     (PAsset (ToAssetResponse
        (set_UpdatedAt now
           (set_TxHash tx' (set_ContractAddress addr (AfterFind r)))))),
   replace_row id
     (columns (set_UpdatedAt now (set_TxHash tx' (set_ContractAddress addr r))))
     db).
Proof.
  intros Ha Hl Hid tx'. unfold UpdateContractAddress.
  rewrite (BindJSON_UpdateContract_nonempty _ _ Ha), (First_lookup _ _ _ Hl).
  cbn [UpdateContractRequest.ContractAddress UpdateContractRequest.TxHash].
  destruct (lookup_in _ _ _ Hl) as [Hin Hr].
  subst tx'. destruct (String.eqb tx "") eqn:Etx; cbn [negb].
  - rewrite Save_found.
    + cbn [ID set_UpdatedAt set_ContractAddress AfterFind set_computed].
      rewrite Hr. reflexivity.
    + cbn [ID set_UpdatedAt set_ContractAddress AfterFind set_computed].
      congruence.
    + cbn [ID set_UpdatedAt set_ContractAddress AfterFind set_computed].
      rewrite Hr. eapply lookup_in_ids; eauto.
  - rewrite Save_found.
    + cbn [ID set_UpdatedAt set_TxHash set_ContractAddress AfterFind
             set_computed].
      rewrite Hr. reflexivity.
    + cbn [ID set_UpdatedAt set_TxHash set_ContractAddress AfterFind
             set_computed].
      congruence.
    + cbn [ID set_UpdatedAt set_TxHash set_ContractAddress AfterFind
             set_computed].
      rewrite Hr. eapply lookup_in_ids; eauto.
Qed.

(** ** The invariant holds in every reachable state *)

Lemma store_ok_lookup db id r :
  store_ok db -> lookup id db = Some r -> row_ok r /\ ID r = id /\ id <> "".
Proof.
  intros [_ Hall] Hl. destruct (lookup_in _ _ _ Hl) as [Hin Hid].
  rewrite Forall_forall in Hall. specialize (Hall r Hin).
  split; [assumption|]. split; [assumption|].
  destruct Hall as [_ [Hne _]]. congruence.
Qed.

Lemma MintAsset_store_ok now body db :
  store_ok db -> store_ok (snd (MintAsset now body db)).
Proof.
  intros Hok. destruct (MintAsset now body db) as [resp db'] eqn:E.
  destruct (Success resp) eqn:Hs.
  - destruct (MintAsset_success _ _ _ _ _ E Hs)
      as (req & ts & ey & a & _ & _ & _ & _ & Hid & _ & Hst & _ & _ & _ &
          Hcol & Hfresh & _ & ->).
    apply store_ok_append; [assumption | | assumption].
    split; [assumption|]. split; [|now left].
    rewrite Hid. discriminate.
  - now rewrite (MintAsset_failure _ _ _ _ _ E Hs).
Qed.

Lemma UpdateAssetStaking_store_ok now id body db :
  store_ok db -> store_ok (snd (UpdateAssetStaking now id body db)).
Proof.
  intros Hok. destruct body as [[v]|]; [|assumption].
  fold (staking_body v).
  destruct (Z.eq_dec v 0) as [-> | Hv]; [assumption|].
  destruct (lookup id db) as [r|] eqn:Hl.
  2:{ now rewrite UpdateAssetStaking_not_found. }
  destruct (store_ok_lookup _ _ _ Hok Hl) as [[Hcol [_ Hst]] [Hid Hne]].
  destruct (Z_gt_le_dec v (TotalSupply r)) as [Hgt | Hle].
  - now rewrite (UpdateAssetStaking_exceeds _ _ _ _ _ Hv Hl Hgt).
  - rewrite (UpdateAssetStaking_accepts _ _ _ _ _ Hv Hl Hne Hle). cbn [snd].
    apply store_ok_replace_row; [assumption | | exact Hid].
    split; [apply columns_idem|]. split.
    + cbn. congruence.
    + right. exact Hle.
Qed.

Lemma UpdateContractAddress_store_ok now id body db :
  store_ok db -> store_ok (snd (UpdateContractAddress now id body db)).
Proof.
  intros Hok. destruct body as [[addr tx]|]; [|assumption].
  fold (contract_body addr tx).
  destruct (string_dec addr "") as [-> | Ha]; [assumption|].
  destruct (lookup id db) as [r|] eqn:Hl.
  2:{ now rewrite UpdateContractAddress_not_found. }
  destruct (store_ok_lookup _ _ _ Hok Hl) as [[Hcol [_ Hst]] [Hid Hne]].
  rewrite (UpdateContractAddress_accepts _ _ _ _ _ _ Ha Hl Hne). cbn [snd].
  apply store_ok_replace_row; [assumption | | exact Hid].
  split; [apply columns_idem|]. split.
  - cbn. congruence.
  - exact Hst.
Qed.

Lemma GetAssetByID_same id db : snd (GetAssetByID id db) = db.
Proof. unfold GetAssetByID. now destruct (First id db). Qed.

Lemma GetAssetStats_same id db : snd (GetAssetStats id db) = db.
Proof. unfold GetAssetStats. now destruct (First id db). Qed.

Lemma handle_store_ok now r db :
  store_ok db -> store_ok (snd (handle now r db)).
Proof.
  intros Hok. destruct r; cbn [handle].
  - assumption.
  - now apply MintAsset_store_ok.
  - now rewrite GetAssetByID_same.
  - now apply UpdateContractAddress_store_ok.
  - now rewrite GetAssetStats_same.
  - now apply UpdateAssetStaking_store_ok.
Qed.

Lemma reachable_store_ok db : reachable db -> store_ok db.
Proof.
  induction 1 as [|now r db _ IH]; [apply store_ok_nil|].
  now apply handle_store_ok.
Qed.

Lemma serve_reachable trace db : reachable db -> reachable (serve trace db).
Proof.
  revert db. induction trace as [|[now r] trace IH]; intros db Hr;
    [assumption|].
  cbn [serve]. apply IH. now constructor.
Qed.

(** ** Identifiers *)




(** ** The documents list of the views *)

Lemma Documents_AfterFind r : Documents (AfterFind r) = documents_of r.
Proof.
  unfold AfterFind, documents_of. cbn [Documents set_computed].
  now destruct (String.eqb (DocumentsURI r) "").
Qed.

(** Every view built from a record a query loaded carries the documents
    list: the list, get-by-id, update-contract and update-staking handlers. *)
Lemma fold_slice_append {A B : Type} (f : A -> B) l acc :
  fold_left (fun s x => slice_append s (f x)) l acc =
  match l with
  | [] => acc
  | _ => slice_of (elems acc ++ map f l)
  end.
Proof.
  revert acc. induction l as [|x l IH]; intros acc; [reflexivity|].
  cbn [fold_left]. rewrite IH. destruct l as [|y l]; [reflexivity|].
  unfold slice_append. cbn [elems map]. now rewrite <- app_assoc.
Qed.

(** The slice [GetAllAssets_on] builds from the rows of a query: nil when
    there is none, and otherwise one view for each row, in their order. *)
Lemma GetAllAssets_on_Ok rows db :
  GetAllAssets_on (Ok rows) db =
  (SuccessResponse StatusOK "Assets fetched successfully"
     (PAssets (match rows with
               | [] => nil_slice
               | _ => slice_of (map ToAssetResponse rows)
               end)
              (Z.of_nat (List.length rows))), db).
Proof.
  unfold GetAllAssets_on. rewrite fold_slice_append.
  destruct rows as [|r rows]; [reflexivity|].
  unfold len. cbn [elems app]. now rewrite length_map.
Qed.

Lemma GetAllAssets_documents db assets total :
  Data (fst (GetAllAssets db)) = PAssets assets total ->
  Forall (fun v => Documents (asset v) = documents_of (asset v)) (elems assets).
Proof.
  unfold GetAllAssets, Find. rewrite GetAllAssets_on_Ok. cbn [fst Data SuccessResponse].
  intros H. injection H as <- _.
  destruct (map AfterFind (order_created_at_desc db)) as [|r rows] eqn:E;
    [constructor|].
  cbn [elems]. rewrite <- E, map_map.
  apply Forall_forall. intros v Hv. apply in_map_iff in Hv.
  destruct Hv as [r0 [<- _]]. cbn [asset ToAssetResponse].
  exact (Documents_AfterFind _).
Qed.

Lemma GetAssetByID_documents id db v :
  view_of (fst (GetAssetByID id db)) = Some v ->
  Documents (asset v) = documents_of (asset v).
Proof.
  unfold GetAssetByID. destruct (First id db) as [a|e] eqn:E; [|discriminate].
  apply First_ok in E. destruct E as [r [_ ->]].
  cbn. intros H. injection H as <-. exact (Documents_AfterFind _).
Qed.

Lemma UpdateContractAddress_documents now id body db v :
  store_ok db ->
  view_of (fst (UpdateContractAddress now id body db)) = Some v ->
  Documents (asset v) = documents_of (asset v).
Proof.
  intros Hok. destruct body as [[addr tx]|]; [|discriminate].
  fold (contract_body addr tx).
  destruct (string_dec addr "") as [-> | Ha]; [discriminate|].
  destruct (lookup id db) as [r|] eqn:Hl.
  2:{ now rewrite UpdateContractAddress_not_found. }
  destruct (store_ok_lookup _ _ _ Hok Hl) as [_ [Hid Hne]].
  rewrite (UpdateContractAddress_accepts _ _ _ _ _ _ Ha Hl Hne).
  cbn [fst view_of Data SuccessResponse]. intros H. injection H as <-.
  cbn [asset ToAssetResponse]. exact (Documents_AfterFind _).
Qed.

Lemma UpdateAssetStaking_documents now id body db v :
  store_ok db ->
  view_of (fst (UpdateAssetStaking now id body db)) = Some v ->
  Documents (asset v) = documents_of (asset v).
Proof.
  intros Hok. destruct body as [[n]|]; [|discriminate].
  fold (staking_body n).
  destruct (Z.eq_dec n 0) as [-> | Hn]; [discriminate|].
  destruct (lookup id db) as [r|] eqn:Hl.
  2:{ now rewrite UpdateAssetStaking_not_found. }
  destruct (store_ok_lookup _ _ _ Hok Hl) as [_ [Hid Hne]].
  destruct (Z_gt_le_dec n (TotalSupply r)) as [Hgt | Hle].
  - now rewrite (UpdateAssetStaking_exceeds _ _ _ _ _ Hn Hl Hgt).
  - rewrite (UpdateAssetStaking_accepts _ _ _ _ _ Hn Hl Hne Hle).
    cbn [fst view_of Data SuccessResponse]. intros H. injection H as <-.
    cbn [asset ToAssetResponse]. exact (Documents_AfterFind _).
Qed.

(** The mint handler builds its view from the struct it has just inserted;
    no query loads it, the hook does not run, and the list stays empty. *)
Lemma MintAsset_documents now body db v :
  view_of (fst (MintAsset now body db)) = Some v ->
  Documents (asset v) = nil_slice /\ TopStakers (asset v) = nil_slice.
Proof.
  destruct (MintAsset now body db) as [resp db'] eqn:E. cbn [fst].
  destruct (Success resp) eqn:Hs.
  - destruct (MintAsset_success _ _ _ _ _ E Hs)
      as (req & ts & ey & a & _ & _ & _ & _ & _ & _ & _ & _ & _ & _ &
          Hcol & _ & -> & _).
    cbn. intros H. injection H as <-. cbn [asset].
    now apply columns_fixed.
  - revert E. unfold MintAsset.
    repeat match goal with
           | |- context [match ?x with _ => _ end] => destruct x
           end;
      intros E; injection E as <- <-; discriminate.
Qed.

Lemma lookup_app_fresh db a :
  ~ In (ID a) (map ID db) -> lookup (ID a) (db ++ [a]) = Some a.
Proof.
  unfold lookup. induction db as [|x db IH]; cbn [app find map In]; intros Hf.
  - assert (E : has_id (ID a) a = true) by now apply has_id_true.
    now rewrite E.
  - assert (E : has_id (ID a) x = false) by (apply has_id_false; tauto).
    rewrite E. apply IH. tauto.
Qed.

Lemma lookup_app_old db a id :
  id <> ID a -> lookup id (db ++ [a]) = lookup id db.
Proof.
  unfold lookup. intros Hne. induction db as [|x db IH]; cbn [app find].
  - assert (E : has_id id a = false) by (apply has_id_false; congruence).
    now rewrite E.
  - destruct (has_id id x); [reflexivity | assumption].
Qed.

End Handlers.

(** ** Shifting and rounding are monotone *)

Lemma iter_pos_pres {A} (f : A -> A) (R : A -> A -> Prop) :
  (forall x y, R x y -> R (f x) (f y)) ->
  forall p x y, R x y -> R (iter_pos f p x) (iter_pos f p y).
Proof. intros Hf. induction p; simpl; auto. Qed.

Lemma iter_pos_inv {A} (f : A -> A) (P : A -> Prop) :
  (forall x, P x -> P (f x)) ->
  forall p x, P x -> P (iter_pos f p x).
Proof. intros Hf. induction p; simpl; auto. Qed.

Lemma shr_1_code r :
  0 <= shr_m r ->
  0 <= shr_m (shr_1 r) /\
  code (shr_1 r) = 2 * shr_m r + (if shr_r r || shr_s r then 1 else 0).
Proof.
  destruct r as [m r s]. unfold code. cbn [shr_m].
  destruct m as [|[p|p|]|p]; cbn [shr_1 shr_m shr_r shr_s]; intros Hm;
    try lia; destruct (r || s); lia.
Qed.

Lemma code_bounds r : 4 * shr_m r <= code r <= 4 * shr_m r + 3.
Proof. unfold code. destruct (shr_r r), (shr_s r); lia. Qed.

Lemma shr_1_mono a b : le_code a b -> le_code (shr_1 a) (shr_1 b).
Proof.
  intros (Ha & Hb & Hc).
  destruct (shr_1_code a Ha) as [Ha' Ea], (shr_1_code b Hb) as [Hb' Eb].
  split; [assumption|]. split; [assumption|]. rewrite Ea, Eb.
  unfold code in Hc.
  destruct (shr_r a), (shr_s a), (shr_r b), (shr_s b); cbn [orb]; lia.
Qed.

Lemma shr_1_exact m : 0 <= m -> shr_1 (exact_record (2 * m)) = exact_record m.
Proof. destruct m as [|p|p]; [reflexivity | reflexivity | lia]. Qed.

Lemma iter_shr_1_exact p : forall m,
  0 <= m -> iter_pos shr_1 p (exact_record (m * 2 ^ Z.pos p)) = exact_record m.
Proof.
  induction p as [p IH|p IH|]; intros m Hm; cbn [iter_pos].
  - replace (m * 2 ^ Z.pos p~1) with (2 * ((m * 2 ^ Z.pos p) * 2 ^ Z.pos p)).
    + rewrite shr_1_exact by (apply Z.mul_nonneg_nonneg; lia).
      rewrite IH by (apply Z.mul_nonneg_nonneg; lia). now apply IH.
    + replace (Z.pos p~1) with (Z.pos p + Z.pos p + 1) by lia.
      rewrite !Z.pow_add_r, Z.pow_1_r by lia. ring.
  - replace (m * 2 ^ Z.pos p~0) with ((m * 2 ^ Z.pos p) * 2 ^ Z.pos p).
    + rewrite IH by (apply Z.mul_nonneg_nonneg; lia). now apply IH.
    + replace (Z.pos p~0) with (Z.pos p + Z.pos p) by lia.
      rewrite Z.pow_add_r by lia. ring.
  - rewrite Z.pow_1_r, Z.mul_comm. now apply shr_1_exact.
Qed.

Lemma iter_shr_1_mono p a b :
  le_code a b -> le_code (iter_pos shr_1 p a) (iter_pos shr_1 p b).
Proof. apply iter_pos_pres. exact shr_1_mono. Qed.

Lemma code_exact m : code (exact_record m) = 4 * m.
Proof. unfold code, exact_record. cbn. lia. Qed.

Lemma rne_exact m : rne (exact_record m) = m.
Proof. reflexivity. Qed.

Lemma rne_bounds r : shr_m r <= rne r <= shr_m r + 1.
Proof.
  unfold rne. destruct r as [m [|] [|]]; cbn; try lia.
  destruct (Z.even m); lia.
Qed.

Lemma rne_mono a b : code a <= code b -> rne a <= rne b.
Proof.
  intros Hc. pose proof (rne_bounds a) as Ba. pose proof (rne_bounds b) as Bb.
  destruct (Z.eq_dec (shr_m a) (shr_m b)) as [E | N].
  - unfold rne, code in *. destruct a as [m ra sa], b as [m' rb sb].
    cbn [shr_m shr_r shr_s] in *. subst m'.
    destruct ra, sa, rb, sb; cbn [loc_of_shr_record round_nearest_even] in *;
      try lia; destruct (Z.even m); lia.
  - pose proof (code_bounds a). pose proof (code_bounds b). lia.
Qed.

(** Shifting a record that lies at or below [K * 2^p] by [p] bits gives a
    record at or below [K]; likewise from above. *)
Lemma iter_shr_1_le p a K :
  0 <= shr_m a -> 0 <= K -> code a <= 4 * (K * 2 ^ Z.pos p) ->
  0 <= shr_m (iter_pos shr_1 p a) /\ code (iter_pos shr_1 p a) <= 4 * K.
Proof.
  intros Ha HK Hc.
  assert (H : le_code a (exact_record (K * 2 ^ Z.pos p))).
  { split; [assumption|]. split; [cbn; apply Z.mul_nonneg_nonneg; lia|].
    now rewrite code_exact. }
  apply (iter_shr_1_mono p) in H. rewrite iter_shr_1_exact in H by assumption.
  destruct H as (H1 & _ & H2). rewrite code_exact in H2. now split.
Qed.

Lemma iter_shr_1_ge p a K :
  0 <= shr_m a -> 0 <= K -> 4 * (K * 2 ^ Z.pos p) <= code a ->
  4 * K <= code (iter_pos shr_1 p a).
Proof.
  intros Ha HK Hc.
  assert (H : le_code (exact_record (K * 2 ^ Z.pos p)) a).
  { split; [cbn; apply Z.mul_nonneg_nonneg; lia|]. split; [assumption|].
    now rewrite code_exact. }
  apply (iter_shr_1_mono p) in H. rewrite iter_shr_1_exact in H by assumption.
  destruct H as (_ & _ & H2). now rewrite code_exact in H2.
Qed.

(** ** Digits *)

Lemma digits2_pos_size p : digits2_pos p = Pos.size p.
Proof. induction p; cbn; congruence. Qed.

Lemma Zdigits2_log2 m : 0 < m -> Zdigits2 m = Z.log2 m + 1.
Proof.
  destruct m as [|p|p]; try lia. intros _. cbn [Zdigits2].
  rewrite digits2_pos_size. destruct p; cbn; lia.
Qed.

Lemma Zdigits2_le m b : 0 <= m -> 0 <= b -> m < 2 ^ b -> Zdigits2 m <= b.
Proof.
  intros Hm Hb Hlt. destruct (Z.eq_dec m 0) as [-> | Hn]; [cbn; lia|].
  rewrite Zdigits2_log2 by lia.
  assert (Z.log2 m < b) by (apply Z.log2_lt_pow2; lia). lia.
Qed.

Lemma shr_m_of_loc m l : shr_m (shr_record_of_loc m l) = m.
Proof. now destruct l as [|[| |]]. Qed.

Lemma shr_of_loc_exact m : shr_record_of_loc m loc_Exact = exact_record m.
Proof. reflexivity. Qed.

(** ** Rounding stays below a float that bounds the exact value *)

Lemma fexp_eq x : fexp prec emax x = Z.max (x - 53) (-1074).
Proof. reflexivity. Qed.

Lemma pow2_pos x : 0 < 2 ^ x \/ 2 ^ x = 0.
Proof.
  destruct (Z_le_gt_dec 0 x).
  - left. now apply Z.pow_pos_nonneg.
  - right. apply Z.pow_neg_r. lia.
Qed.

Lemma pow2_split a b : 0 <= a -> 0 <= b -> 2 ^ (a + b) = 2 ^ a * 2 ^ b.
Proof. intros. now apply Z.pow_add_r. Qed.

(** One normalisation step, [shr_fexp], of a record at or below the float
    [mV * 2^eV]. *)
Lemma shr_fexp_le m e l mV eV :
  0 <= m -> e <= eV -> -1074 <= eV -> 0 < mV < 2 ^ 53 ->
  code (shr_record_of_loc m l) <= 4 * (mV * 2 ^ (eV - e)) ->
  forall r1 e1, shr_fexp prec emax m e l = (r1, e1) ->
  e <= e1 <= eV /\ 0 <= shr_m r1 /\ code r1 <= 4 * (mV * 2 ^ (eV - e1)).
Proof.
  intros Hm He HeV HmV Hc r1 e1. unfold shr_fexp, shr.
  destruct (fexp prec emax (Zdigits2 m + e) - e) as [|p|p] eqn:En;
    intros H; injection H as <- <-;
    try (split; [lia|]; split; [now rewrite shr_m_of_loc | assumption]).
  assert (Hd : Zdigits2 m + e - 53 <= eV).
  { assert (Zdigits2 m <= 53 + (eV - e)); [|lia].
    apply Zdigits2_le; [assumption | lia |].
    pose proof (code_bounds (shr_record_of_loc m l)) as B.
    rewrite shr_m_of_loc in B.
    rewrite pow2_split by lia.
    assert (0 < 2 ^ (eV - e)) by (apply Z.pow_pos_nonneg; lia).
    nia. }
  rewrite fexp_eq in En.
  assert (He1 : e + Z.pos p <= eV) by lia.
  split; [lia|].
  apply iter_shr_1_le.
  - now rewrite shr_m_of_loc.
  - assert (0 < 2 ^ (eV - (e + Z.pos p))) by (apply Z.pow_pos_nonneg; lia).
    nia.
  - replace (mV * 2 ^ (eV - (e + Z.pos p)) * 2 ^ Z.pos p)
      with (mV * 2 ^ (eV - e)); [assumption|].
    replace (eV - e) with ((eV - (e + Z.pos p)) + Z.pos p) by lia.
    rewrite pow2_split by lia. ring.
Qed.

(** [binary_round_aux] of a non-negative value at or below the float
    [mV * 2^eV] gives +0 or a positive float at or below it. *)
Lemma binary_round_aux_le mx ex lx mV eV :
  0 <= mx -> ex <= eV -> -1074 <= eV <= 971 -> 0 < mV < 2 ^ 53 ->
  code (shr_record_of_loc mx lx) <= 4 * (mV * 2 ^ (eV - ex)) ->
  sf_le (binary_round_aux prec emax false mx ex lx) mV eV.
Proof.
  intros Hm He HeV HmV Hc. unfold binary_round_aux.
  destruct (shr_fexp prec emax mx ex lx) as [r1 e1] eqn:E1.
  destruct (shr_fexp_le _ _ _ _ _ Hm He (proj1 HeV) HmV Hc _ _ E1)
    as (He1 & Hr1 & Hc1).
  fold (rne r1).
  assert (Hrne : 0 <= rne r1 <= mV * 2 ^ (eV - e1)).
  { split; [pose proof (rne_bounds r1); lia|].
    rewrite <- (rne_exact (mV * 2 ^ (eV - e1))). apply rne_mono.
    now rewrite code_exact. }
  destruct (shr_fexp prec emax (rne r1) e1 loc_Exact) as [r3 e3] eqn:E3.
  assert (Hc3 : code (shr_record_of_loc (rne r1) loc_Exact)
                <= 4 * (mV * 2 ^ (eV - e1))).
  { rewrite shr_of_loc_exact, code_exact. lia. }
  destruct (shr_fexp_le _ _ _ _ _ (proj1 Hrne) (proj2 He1) (proj1 HeV) HmV
              Hc3 _ _ E3) as (He3 & Hr3 & Hc3').
  pose proof (code_bounds r3) as B3.
  destruct (shr_m r3) as [|m3|m3] eqn:Em; [exact I | | lia].
  replace (e3 <=? emax - prec) with true
    by (symmetry; apply Z.leb_le; change (emax - prec) with 971; lia).
  cbn [sf_le]. split; lia.
Qed.

(** ** Quotient of two ordered positive floats, product with 100 *)

Lemma code_of_loc_le m l : code (shr_record_of_loc m l) <= 4 * m + 3.
Proof.
  pose proof (code_bounds (shr_record_of_loc m l)) as B.
  now rewrite shr_m_of_loc in B.
Qed.

Lemma new_location_zero n : new_location n 0 = loc_Exact.
Proof.
  unfold new_location, new_location_even, new_location_odd.
  now destruct (Z.even n).
Qed.

(** A positive float divided by one that is not smaller is +0 or a positive
    float that is at most 1. *)
Lemma SFdiv_le_one ms es mt et :
  es <= et -> Z.pos ms <= Z.pos mt * 2 ^ (et - es) ->
  sf_le (SFdiv prec emax (S754_finite false ms es) (S754_finite false mt et))
        (2 ^ 52) (-52).
Proof.
  intros He Hle. cbn [SFdiv xorb]. unfold SFdiv_core_binary.
  set (d1 := Zdigits2 (Z.pos ms)). set (d2 := Zdigits2 (Z.pos mt)).
  set (e' := Z.min (fexp prec emax (d1 + es - (d2 + et))) (es - et)).
  assert (Hpow : 0 < 2 ^ (et - es)) by (apply Z.pow_pos_nonneg; lia).
  assert (Hd : d1 + es - (d2 + et) <= 0).
  { assert (d1 <= d2 + (et - es)); [|lia].
    subst d1 d2. apply Zdigits2_le; [lia | |].
    - rewrite Zdigits2_log2 by lia. pose proof (Z.log2_nonneg (Z.pos mt)). lia.
    - rewrite Zdigits2_log2 by lia. rewrite pow2_split;
        [| pose proof (Z.log2_nonneg (Z.pos mt)); lia | lia].
      assert (Z.pos mt < 2 ^ (Z.log2 (Z.pos mt) + 1)).
      { replace (Z.log2 (Z.pos mt) + 1) with (Z.succ (Z.log2 (Z.pos mt)))
          by lia.
        apply Z.log2_spec. lia. }
      nia. }
  assert (He' : e' <= -53 /\ e' <= es - et).
  { subst e'. rewrite fexp_eq. lia. }
  clearbody e'. destruct He' as [He1 He2].
  set (s := es - et - e').
  assert (Hs : 0 <= s) by (subst s; lia).
  set (m' := match s with
             | 0 => Z.pos ms
             | Z.pos _ => Z.shiftl (Z.pos ms) s
             | Z.neg _ => 0
             end).
  assert (Hm' : m' = Z.pos ms * 2 ^ s).
  { subst m'. destruct s as [|p|p] eqn:Es; [ring | | lia].
    rewrite Z.shiftl_mul_pow2 by lia. reflexivity. }
  clearbody m'.
  assert (Hbound : m' <= Z.pos mt * 2 ^ (- e')).
  { rewrite Hm'. replace (- e') with ((et - es) + s) by (subst s; lia).
    rewrite pow2_split by lia.
    assert (0 < 2 ^ s) by (apply Z.pow_pos_nonneg; lia). nia. }
  pose proof (Z_div_mod m' (Z.pos mt) eq_refl) as Hdiv.
  destruct (Z.div_eucl m' (Z.pos mt)) as [q r]. destruct Hdiv as [Hq Hr].
  assert (HK : 0 < 2 ^ (- e')) by (apply Z.pow_pos_nonneg; lia).
  assert (Hm0 : 0 <= m').
  { rewrite Hm'. assert (0 < 2 ^ s) by (apply Z.pow_pos_nonneg; lia). nia. }
  assert (Hq0 : 0 <= q) by nia.
  assert (HqK : q <= 2 ^ (- e')) by nia.
  apply binary_round_aux_le; try lia.
  replace (2 ^ 52 * 2 ^ (-52 - e')) with (2 ^ (- e')).
  2:{ rewrite <- pow2_split by lia. f_equal. lia. }
  destruct (Z.eq_dec r 0) as [-> | Hr0].
  - rewrite new_location_zero, shr_of_loc_exact, code_exact. lia.
  - assert (q < 2 ^ (- e')) by nia.
    pose proof (code_of_loc_le q (new_location (Z.pos mt) r)). lia.
Qed.

(** The float 100, as [Prim2SF] shows it. *)
Lemma Prim2SF_100 :
  Prim2SF 100%float = S754_finite false 7036874417766400 (-46).
Proof. reflexivity. Qed.

(** A float that is +0 or positive and at most 1, times 100, is +0 or a
    positive float that is at most 100. *)
Lemma SFmul_100_le q :
  sf_le q (2 ^ 52) (-52) ->
  sf_le (SFmul prec emax q (S754_finite false 7036874417766400 (-46)))
        7036874417766400 (-46).
Proof.
  destruct q as [[|]|[|]| |[|] mq eq]; cbn [sf_le SFmul xorb]; try tauto.
  intros [He Hm].
  assert (Hq : Z.pos mq <= 2 ^ (- eq)).
  { replace (- eq) with (52 + (-52 - eq)) by lia.
    rewrite pow2_split by lia. exact Hm. }
  apply binary_round_aux_le; try lia.
  rewrite shr_of_loc_exact, code_exact.
  replace (-46 - (eq + -46)) with (- eq) by lia.
  rewrite Pos2Z.inj_mul. nia.
Qed.

(** What [<=?] says of such results. *)
Lemma sf_le_SFleb x mV eV :
  sf_le x (Z.pos mV) eV ->
  SFleb x (S754_finite false mV eV) = true /\
  SFleb (S754_zero false) x = true.
Proof.
  destruct x as [[|]|[|]| |[|] m e]; cbn [sf_le]; try tauto.
  intros [He Hm]. split; [|reflexivity].
  unfold SFleb, SFcompare.
  destruct (Z.compare_spec e eV) as [-> | Hlt | Hgt]; [|reflexivity | lia].
  rewrite Z.sub_diag, Z.pow_0_r, Z.mul_1_r in Hm.
  rewrite Pos.compare_cont_spec. cbn [Pos.switch_Eq].
  destruct (Pos.compare_spec m mV); [reflexivity | reflexivity | lia].
Qed.

(** ** The conversion of integers is monotone *)

Lemma Zpos_iter_xO p k : Z.pos (Pos.iter xO p k) = Z.pos p * 2 ^ Z.pos k.
Proof.
  rewrite (Pos.iter_swap_gen _ _ Z.pos xO (Z.mul 2)) by reflexivity.
  change (Pos.iter (Z.mul 2) (Z.pos p) k) with (Z.shiftl (Z.pos p) (Z.pos k)).
  now rewrite Z.shiftl_mul_pow2.
Qed.

Lemma log2_digits n d :
  0 < n -> d = Z.log2 n + 1 -> 2 ^ (d - 1) <= n < 2 ^ d.
Proof.
  intros Hn ->. replace (Z.log2 n + 1 - 1) with (Z.log2 n) by lia.
  replace (Z.log2 n + 1) with (Z.succ (Z.log2 n)) by lia.
  now apply Z.log2_spec.
Qed.

Lemma Zdigits2_53 m : 2 ^ 52 <= m < 2 ^ 53 -> Zdigits2 m = 53.
Proof.
  intros H. rewrite Zdigits2_log2 by lia.
  rewrite (Z.log2_unique m 52); lia.
Qed.

(** Rounding a mantissa of 53 bits with an exponent in range changes
    nothing. *)
Lemma binary_round_aux_normal m e :
  2 ^ 52 <= m < 2 ^ 53 -> -1074 <= e <= 971 ->
  binary_round_aux prec emax false m e loc_Exact =
  S754_finite false (Z.to_pos m) e.
Proof.
  intros Hm He. unfold binary_round_aux, shr_fexp.
  rewrite (Zdigits2_53 m Hm), fexp_eq.
  replace (Z.max (53 + e - 53) (-1074) - e) with 0 by lia.
  cbn [shr shr_record_of_loc shr_m loc_of_shr_record round_nearest_even].
  rewrite (Zdigits2_53 m Hm), fexp_eq.
  replace (Z.max (53 + e - 53) (-1074) - e) with 0 by lia.
  cbn [shr shr_record_of_loc shr_m].
  destruct m as [|p|p]; try lia.
  replace (e <=? emax - prec) with true
    by (symmetry; apply Z.leb_le; change (emax - prec) with 971; lia).
  reflexivity.
Qed.

Lemma shr_fexp_normal m e :
  2 ^ 52 <= m < 2 ^ 53 -> -1074 <= e ->
  shr_fexp prec emax m e loc_Exact = (exact_record m, e).
Proof.
  intros Hm He. unfold shr_fexp.
  rewrite (Zdigits2_53 m Hm), fexp_eq.
  replace (Z.max (53 + e - 53) (-1074) - e) with 0 by lia.
  reflexivity.
Qed.

(** The first normalisation of an integer of more than 53 bits. *)
Lemma shr_fexp_big n p :
  0 < n -> Z.log2 n + 1 - 53 = Z.pos p ->
  shr_fexp prec emax n 0 loc_Exact = (iter_pos shr_1 p (exact_record n), Z.pos p).
Proof.
  intros Hn Hd. unfold shr_fexp.
  rewrite Zdigits2_log2 by lia. rewrite fexp_eq.
  replace (Z.max (Z.log2 n + 1 + 0 - 53) (-1074) - 0) with (Z.pos p) by lia.
  reflexivity.
Qed.

(** A mantissa that rounding has carried to [2^53] is renormalised. *)
Lemma binary_round_carry e :
  -1074 <= e <= 970 ->
  shr_fexp prec emax (2 ^ 53) e loc_Exact = (exact_record (2 ^ 52), e + 1).
Proof.
  intros He. unfold shr_fexp.
  change (Zdigits2 (2 ^ 53)) with 54. rewrite fexp_eq.
  replace (Z.max (54 + e - 53) (-1074) - e) with 1 by lia.
  reflexivity.
Qed.

Lemma mu_small n :
  0 < n -> Z.log2 n + 1 <= 53 -> mu n = n * 2 ^ (53 - (Z.log2 n + 1)).
Proof.
  intros Hn Hd. unfold mu. apply Z.leb_le in Hd. now rewrite Hd.
Qed.

Lemma mu_big n p :
  0 < n -> Z.log2 n + 1 - 53 = Z.pos p ->
  mu n = rne (iter_pos shr_1 p (exact_record n)).
Proof.
  intros Hn Hd. unfold mu.
  replace (Z.log2 n + 1 <=? 53) with false by (symmetry; apply Z.leb_gt; lia).
  rewrite Hd. reflexivity.
Qed.

Lemma mu_bounds n : 0 < n -> 2 ^ 52 <= mu n <= 2 ^ 53.
Proof.
  intros Hn. pose proof (log2_digits n _ Hn eq_refl) as Hb.
  pose proof (Z.log2_nonneg n) as Hl.
  destruct (Z.log2 n + 1 - 53) as [|p|p] eqn:Ed.
  - rewrite mu_small by lia.
    replace (Z.log2 n + 1) with 53 in * by lia. cbn in *. lia.
  - rewrite (mu_big n p Hn Ed).
    replace (Z.log2 n + 1) with (53 + Z.pos p) in Hb by lia.
    replace (53 + Z.pos p - 1) with (52 + Z.pos p) in Hb by lia.
    rewrite !pow2_split in Hb by lia.
    assert (0 < 2 ^ Z.pos p) by (apply Z.pow_pos_nonneg; lia).
    destruct (iter_shr_1_le p (exact_record n) (2 ^ 53)) as [H0 Hle];
      [cbn; lia | lia | rewrite code_exact; lia|].
    pose proof (iter_shr_1_ge p (exact_record n) (2 ^ 52)) as Hge.
    rewrite code_exact in Hge.
    specialize (Hge ltac:(cbn; lia) ltac:(lia) ltac:(lia)).
    set (r := iter_pos shr_1 p (exact_record n)) in *.
    pose proof (code_bounds r). pose proof (rne_bounds r). split; [lia|].
    rewrite <- (rne_exact (2 ^ 53)). apply rne_mono.
    now rewrite code_exact.
  - rewrite mu_small by lia.
    set (d := Z.log2 n + 1) in *.
    assert (Hk : 53 - d = Z.pos p) by lia.
    replace (2 ^ 52) with (2 ^ (d - 1) * 2 ^ (53 - d))
      by (rewrite <- pow2_split by lia; f_equal; lia).
    replace (2 ^ 53) with (2 ^ d * 2 ^ (53 - d))
      by (rewrite <- pow2_split by lia; f_equal; lia).
    assert (0 < 2 ^ (53 - d)) by (apply Z.pow_pos_nonneg; lia). nia.
Qed.

Lemma mu_small_lt n :
  0 < n -> Z.log2 n + 1 <= 53 -> mu n < 2 ^ 53.
Proof.
  intros Hn Hd. rewrite mu_small by assumption.
  pose proof (log2_digits n _ Hn eq_refl) as Hb.
  pose proof (Z.log2_nonneg n) as Hl.
  set (d := Z.log2 n + 1) in *.
  replace (2 ^ 53) with (2 ^ d * 2 ^ (53 - d))
    by (rewrite <- pow2_split by lia; f_equal; lia).
  assert (0 < 2 ^ (53 - d)) by (apply Z.pow_pos_nonneg; lia). nia.
Qed.

(** The shape of [fl n]: the mantissa [mu n] with the exponent that the
    number of bits of [n] gives, or [2^52] with the next exponent when
    rounding has carried. *)
Lemma fl_shape n :
  0 < n < 2 ^ 63 ->
  exists m e,
    fl n = S754_finite false m e /\
    ((mu n < 2 ^ 53 /\ Z.pos m = mu n /\ e = Z.log2 n + 1 - 53) \/
     (mu n = 2 ^ 53 /\ Z.pos m = 2 ^ 52 /\ e = Z.log2 n + 1 - 52)).
Proof.
  intros [Hn Hn63]. pose proof (mu_bounds n Hn) as Hmu.
  pose proof (Z.log2_nonneg n) as Hl.
  assert (Hl63 : Z.log2 n < 63) by (apply Z.log2_lt_pow2; lia).
  destruct n as [|q|q]; try lia.
  unfold fl. cbn [binary_normalize]. unfold binary_round, shl_align.
  change (Z.pos (digits2_pos q)) with (Zdigits2 (Z.pos q)).
  rewrite Zdigits2_log2 by lia. rewrite fexp_eq.
  set (d := Z.log2 (Z.pos q) + 1) in *.
  replace (Z.max (d + 0 - 53) (-1074) - 0) with (d - 53) by lia.
  replace (Z.max (d + 0 - 53) (-1074)) with (d - 53) by lia.
  destruct (d - 53) as [|p|p] eqn:Ed.
  - (* 53 bits: nothing to align *)
    assert (Hm : mu (Z.pos q) = Z.pos q).
    { rewrite mu_small by (fold d; lia). fold d.
      replace (53 - d) with 0 by lia. cbn. lia. }
    pose proof (mu_small_lt (Z.pos q) Hn ltac:(fold d; lia)) as Hlt.
    rewrite binary_round_aux_normal by lia.
    eexists _, _. split; [reflexivity|]. left. cbn [Z.to_pos]. lia.
  - (* more than 53 bits: shifted right and rounded *)
    unfold binary_round_aux.
    rewrite (shr_fexp_big (Z.pos q) p Hn Ed). fold (rne (iter_pos shr_1 p (exact_record (Z.pos q)))).
    rewrite <- (mu_big (Z.pos q) p Hn Ed).
    destruct (Z.eq_dec (mu (Z.pos q)) (2 ^ 53)) as [E | N].
    + rewrite E, binary_round_carry by lia. cbn [shr_m exact_record].
      replace (Z.pos p + 1 <=? emax - prec) with true
        by (symmetry; apply Z.leb_le; change (emax - prec) with 971; lia).
      eexists _, _. split; [reflexivity|]. right. lia.
    + rewrite shr_fexp_normal by lia. cbn [shr_m exact_record].
      destruct (mu (Z.pos q)) as [|m|m] eqn:Em; try lia.
      replace (Z.pos p <=? emax - prec) with true
        by (symmetry; apply Z.leb_le; change (emax - prec) with 971; lia).
      eexists _, _. split; [reflexivity|]. left. lia.
  - (* fewer than 53 bits: shifted left *)
    assert (Hm : mu (Z.pos q) = Z.pos q * 2 ^ Z.pos p).
    { rewrite mu_small by (fold d; lia). fold d. f_equal. f_equal. lia. }
    pose proof (mu_small_lt (Z.pos q) Hn ltac:(fold d; lia)) as Hlt.
    rewrite Zpos_iter_xO, <- Hm.
    rewrite binary_round_aux_normal by lia.
    eexists _, _. split; [reflexivity|]. left.
    rewrite Z2Pos.id by lia. lia.
Qed.

Lemma mu_mono s t :
  0 < s <= t -> Z.log2 s = Z.log2 t -> mu s <= mu t.
Proof.
  intros Hst Hl. pose proof (Z.log2_nonneg s).
  destruct (Z.log2 s + 1 - 53) as [|p|p] eqn:Ed.
  - rewrite !mu_small by lia. rewrite <- Hl.
    assert (0 < 2 ^ (53 - (Z.log2 s + 1))) by (apply Z.pow_pos_nonneg; lia).
    nia.
  - rewrite (mu_big s p) by lia. rewrite (mu_big t p) by lia.
    apply rne_mono. apply iter_shr_1_mono.
    split; [cbn; lia|]. split; [cbn; lia|]. rewrite !code_exact. lia.
  - rewrite !mu_small by lia. rewrite <- Hl.
    assert (0 < 2 ^ (53 - (Z.log2 s + 1))) by (apply Z.pow_pos_nonneg; lia).
    nia.
Qed.

Lemma fl_mono s t :
  0 < s <= t -> t < 2 ^ 63 ->
  exists ms es mt et,
    fl s = S754_finite false ms es /\ fl t = S754_finite false mt et /\
    es <= et /\ Z.pos ms <= Z.pos mt * 2 ^ (et - es).
Proof.
  intros Hst Ht.
  destruct (fl_shape s ltac:(lia)) as (ms & es & Es & Hs).
  destruct (fl_shape t ltac:(lia)) as (mt & et & Et & Ht').
  exists ms, es, mt, et. split; [assumption|]. split; [assumption|].
  pose proof (mu_bounds s ltac:(lia)) as Bs.
  pose proof (mu_bounds t ltac:(lia)) as Bt.
  assert (Hlog : Z.log2 s <= Z.log2 t) by (apply Z.log2_le_mono; lia).
  destruct (Z.eq_dec (Z.log2 s) (Z.log2 t)) as [El | Nl].
  - pose proof (mu_mono s t Hst El) as Hmu.
    destruct Hs as [(Hs1 & Hs2 & Hs3) | (Hs1 & Hs2 & Hs3)],
             Ht' as [(Ht1 & Ht2 & Ht3) | (Ht1 & Ht2 & Ht3)].
    + split; [lia|]. replace (et - es) with 0 by lia. cbn. lia.
    + split; [lia|]. replace (et - es) with 1 by lia. cbn. lia.
    + lia.
    + split; [lia|]. replace (et - es) with 0 by lia. cbn. lia.
  - assert (Hms : Z.pos ms < 2 ^ 53) by (destruct Hs as [?|?]; lia).
    assert (Hmt : 2 ^ 52 <= Z.pos mt) by (destruct Ht' as [?|?]; lia).
    assert (He : es <= et) by (destruct Hs as [?|?], Ht' as [?|?]; lia).
    split; [assumption|].
    destruct (Z.eq_dec es et) as [E | N].
    + replace (et - es) with 0 by lia.
      destruct Hs as [?|?], Ht' as [?|?]; cbn; lia.
    + assert (H2 : 2 ^ 1 <= 2 ^ (et - es)) by (apply Z.pow_le_mono_r; lia).
      apply Z.le_trans with (2 ^ 52 * 2 ^ 1); [lia|].
      apply Z.mul_le_mono_nonneg; lia.
Qed.

(** ** The staking progress, as a float *)

Lemma float64_of_int64_nonneg n :
  0 <= n < 2 ^ 63 -> Prim2SF (float64_of_int64 n) = fl n.
Proof.
  intros Hn. unfold float64_of_int64, int64_min.
  replace (n =? - 2 ^ 63) with false by (symmetry; apply Z.eqb_neq; lia).
  replace (n <? 0) with false by (symmetry; apply Z.ltb_ge; lia).
  rewrite of_uint63_spec. unfold fl. f_equal.
  rewrite Uint63.of_Z_spec. apply Z.mod_small.
  change Uint63.wB with (2 ^ 63). lia.
Qed.

(** For [0 <= s <= t] and [0 < t]: [float64(s) / float64(t) * 100] lies
    between 0 and 100. *)
Lemma percentage_bounds s t :
  0 <= s <= t -> 0 < t < 2 ^ 63 ->
  let p := (float64_of_int64 s / float64_of_int64 t * 100)%float in
  (0 <=? p)%float = true /\ (p <=? 100)%float = true.
Proof.
  intros Hs Ht p. subst p.
  rewrite !leb_spec, mul_spec, div_spec.
  rewrite !float64_of_int64_nonneg by lia.
  rewrite Prim2SF_100. change (Prim2SF 0) with (S754_zero false).
  unfold SF64mul, SF64div.
  assert (Hle : sf_le (SFdiv prec emax (fl s) (fl t)) (2 ^ 52) (-52)).
  { destruct (Z.eq_dec s 0) as [-> | Hs0].
    - destruct (fl_shape t ltac:(lia)) as (mt & et & Et & _).
      rewrite Et. exact I.
    - destruct (fl_mono s t ltac:(lia) ltac:(lia))
        as (ms & es & mt & et & Es & Et & He & Hm).
      rewrite Es, Et. now apply SFdiv_le_one. }
  apply SFmul_100_le in Hle.
  apply (sf_le_SFleb _ 7036874417766400 (-46)) in Hle.
  destruct Hle as [H1 H2]. now split.
Qed.

(** ** Worked examples *)

Example example_db_rows : example_db = [example_asset].
Proof. reflexivity. Qed.

Example example_db_staked_rows :
  example_db_staked =
  [set_UpdatedAt example_later (set_StakedAmount 250 example_asset)].
Proof. reflexivity. Qed.

Lemma example_db_reachable : @reachable example_runtime example_db.
Proof.
  exact (@reachable_step example_runtime example_now
           (POST_assets_mint (Some example_mint)) [] reachable_init).
Defined.

Lemma reachable_UpdateAssetStaking `{RT : Runtime} now id body db :
  reachable db -> reachable (snd (UpdateAssetStaking now id body db)).
Proof.
  intros H. exact (reachable_step now (PATCH_asset_staking id body) db H).
Qed.

Lemma example_db_staked_reachable : @reachable example_runtime example_db_staked.
Proof.
  exact (@reachable_UpdateAssetStaking example_runtime example_later
           "asset_1700000000" (staking_body 250) example_db
           example_db_reachable).
Defined.

(** The spec's example: staking 250 of 1000 gives a progress of 25 and an
    available supply of 750. *)
Example staking_250_of_1000 :
  let view := ToAssetResponse (set_StakedAmount 250 example_asset) in
  StakingProgress view = 25%float /\ AvailableSupply view = 750.
Proof. split; reflexivity. Qed.

(** Two mints within one second synthesize the same identifier; the second
    is refused by the primary key and reported as a storage error. *)
Example mint_same_second :
  fst (@MintAsset example_runtime (example_now + 1) (Some example_mint)
         example_db) =
  ErrorResponse StatusInternalServerError "Failed to save asset"
    (StoreError ErrUniqueConstraint).
Proof. reflexivity. Qed.

Example ParseInt_examples :
  ParseInt "1000" = Some 1000 /\ ParseInt "-5" = Some (-5) /\
  ParseInt "+12" = Some 12 /\ ParseInt "" = None /\ ParseInt "-" = None /\
  ParseInt "1_000" = None /\ ParseInt "12a" = None /\
  ParseInt "9223372036854775807" = Some int64_max /\
  ParseInt "9223372036854775808" = None /\
  ParseInt "-9223372036854775808" = Some int64_min.
Proof. repeat split. Qed.

(* ================================================================== *)
(** * The claims                                                       *)
(* ================================================================== *)

(** C1 (as amended).  In every reachable state of the table, every record has
    a staked amount that is zero or at most its total supply; so the staked
    amount is within the total supply whenever the total supply is not
    negative.  (Mint stores staked amount 0 with whatever integer the total
    supply parses to, update-staking stores only amounts that do not exceed
    the total supply, update-contract touches neither field.) *)
Theorem C1_staked_zero_or_within_supply `{RT : Runtime} db r :
  reachable db -> In r db ->
  (StakedAmount r = 0 \/ StakedAmount r <= TotalSupply r) /\
  (0 <= TotalSupply r -> StakedAmount r <= TotalSupply r).
Proof.
  intros Hr Hin. apply reachable_store_ok in Hr. destruct Hr as [_ Hall].
  rewrite Forall_forall in Hall. destruct (Hall r Hin) as [_ [_ Hst]].
  split; [assumption | lia].
Qed.

(** C1 (counterexample).  A mint whose total supply is the string "-5" is
    accepted: the table then holds a record with a negative total supply, and
    its staked amount 0 exceeds it. *)
Lemma C1_counterexample :
  let db :=
    snd (@MintAsset example_runtime example_now
           (Some (with_TotalSupply "-5" example_mint)) []) in
  @reachable example_runtime db /\
  exists r, In r db /\ TotalSupply r = -5 /\ StakedAmount r = 0 /\
            ~ (0 <= StakedAmount r <= TotalSupply r).
Proof.
  split.
  - exact (@reachable_step example_runtime example_now
             (POST_assets_mint (Some (with_TotalSupply "-5" example_mint)))
             [] reachable_init).
  - eexists. split; [left; reflexivity|]. cbn. repeat split. lia.
Qed.

Lemma C1_witness :
  @reachable example_runtime example_db_staked /\
  In (set_UpdatedAt example_later (set_StakedAmount 250 example_asset))
     example_db_staked /\
  (250 = 0 \/ 250 <= 1000) /\ (0 <= 1000 -> 250 <= 1000).
Proof.
  split; [exact example_db_staked_reachable|].
  split; [vm_compute; left; reflexivity|].
  apply (@C1_staked_zero_or_within_supply example_runtime example_db_staked
           (set_UpdatedAt example_later (set_StakedAmount 250 example_asset))).
  - exact example_db_staked_reachable.
  - vm_compute; left; reflexivity.
Defined.



(** C3.  On the empty table the list handler succeeds with status 200 and
    total 0, but its assets field is the nil slice, which the envelope shows
    as [null], and not an empty list: the slice of views is declared without
    a value and stays so when the loop over the rows appends nothing.  On a
    table with rows the field is the allocated slice of their views.  In both
    cases the total is the length of the slice, and the handler answers 500
    when the engine reports an error for the query. *)
Theorem C3_list_on_empty_table_is_nil `{RT : Runtime} :
  GetAllAssets [] =
    (SuccessResponse StatusOK "Assets fetched successfully"
       (PAssets nil_slice 0), [])
  /\
  @nil_slice AssetResponse <> slice_of []
  /\
  (forall db, exists assets,
     fst (GetAllAssets db) =
       SuccessResponse StatusOK "Assets fetched successfully"
         (PAssets assets (len assets)) /\
     (assets = nil_slice <-> db = []) /\
     List.length (elems assets) = List.length db)
  /\
  (forall e db,
     GetAllAssets_on (Err e) db =
       (ErrorResponse StatusInternalServerError "Failed to fetch assets"
          (StoreError e), db)).
Proof.
  split; [reflexivity|]. split; [discriminate|]. split; [|reflexivity].
  intros db. unfold GetAllAssets, Find. rewrite GetAllAssets_on_Ok.
  cbn [fst]. rewrite length_map.
  pose proof (order_created_at_desc_length db) as Hlen.
  destruct (order_created_at_desc db) as [|r rows] eqn:E; cbn [map].
  - exists nil_slice. destruct db; [|discriminate Hlen].
    split; [reflexivity|]. split; [tauto | reflexivity].
  - exists (slice_of (map ToAssetResponse (map AfterFind (r :: rows)))). split.
    + unfold len. cbn [elems]. now rewrite !length_map.
    + split.
      * split; [discriminate | intros ->; discriminate Hlen].
      * cbn [elems List.length map]. rewrite !length_map. exact Hlen.
Qed.

(** C4 (as amended).  An update-staking request with a negative amount for an
    existing record is rejected with status 400, the table unchanged, only
    when the amount exceeds the record's total supply; when it does not, the
    handler succeeds with status 200 and stores the negative amount with a
    refreshed update time. *)
Theorem C4_negative_staked_amount `{RT : Runtime} now id v db r :
  reachable db -> lookup id db = Some r -> v < 0 ->
  let out := UpdateAssetStaking now id (staking_body v) db in
  (v > TotalSupply r ->
     StatusCode (fst out) = StatusBadRequest /\ snd out = db) /\
  (v <= TotalSupply r ->
     StatusCode (fst out) = StatusOK /\ Success (fst out) = true /\
     lookup id (snd out) = Some (set_UpdatedAt now (set_StakedAmount v r))).
Proof.
  intros Hr Hl Hneg out. subst out.
  pose proof (reachable_store_ok _ Hr) as Hok.
  destruct (store_ok_lookup _ _ _ Hok Hl) as [[Hcol _] [Hid Hne]].
  assert (Hv : v <> 0) by lia.
  split; intros Hcmp.
  - rewrite (UpdateAssetStaking_exceeds _ _ _ _ _ Hv Hl Hcmp). now split.
  - rewrite (UpdateAssetStaking_accepts _ _ _ _ _ Hv Hl Hne Hcmp).
    cbn [fst snd]. split; [reflexivity|]. split; [reflexivity|].
    rewrite lookup_replace_row; [| exact Hid | eapply lookup_in_ids; eauto].
    f_equal. apply columns_fixed in Hcol. destruct Hcol as [Hd Ht].
    apply columns_fixed. now split.
Qed.

(** C4 (counterexample).  Staking -5 units of the example asset (total supply
    1000) is answered with 200, not 400, and the stored staked amount
    becomes -5. *)
Lemma C4_counterexample :
  let out :=
    @UpdateAssetStaking example_runtime example_later "asset_1700000000"
      (staking_body (-5)) example_db in
  StatusCode (fst out) = StatusOK /\
  StatusCode (fst out) <> StatusBadRequest /\
  snd out <> example_db /\
  option_map StakedAmount (lookup "asset_1700000000" (snd out)) = Some (-5).
Proof. cbv zeta. repeat split; try discriminate. Qed.

Lemma C4_witness :
  @reachable example_runtime example_db /\
  lookup "asset_1700000000" example_db = Some example_asset /\
  -5 < 0 /\
  let out :=
    @UpdateAssetStaking example_runtime example_later "asset_1700000000"
      (staking_body (-5)) example_db in
  (-5 > 1000 -> StatusCode (fst out) = StatusBadRequest /\ snd out = example_db)
  /\
  (-5 <= 1000 ->
     StatusCode (fst out) = StatusOK /\ Success (fst out) = true /\
     lookup "asset_1700000000" (snd out) =
       Some (set_UpdatedAt example_later (set_StakedAmount (-5) example_asset))).
Proof.
  split; [exact example_db_reachable|].
  split; [reflexivity|].
  split; [lia|].
  apply (@C4_negative_staked_amount example_runtime example_later
           "asset_1700000000" (-5) example_db example_asset).
  - exact example_db_reachable.
  - reflexivity.
  - lia.
Defined.

(** C5.  The view the mint handler returns for a request with the documents
    URI "ipfs://docs" has no documents entry: its documents list is the nil
    slice, although the record it has just stored carries that URI.  Listing
    the table afterwards shows the one entry the claim describes, with the
    label, the creation date and the URI. *)
Theorem C5_mint_view_without_documents :
  let out :=
    @MintAsset example_runtime example_now
      (Some (with_DocumentsURI "ipfs://docs" example_mint)) [] in
  (exists id view,
     Data (fst out) = PMint id view /\
     DocumentsURI (asset view) = "ipfs://docs" /\
     Documents (asset view) = nil_slice /\
     @documents_of example_runtime (asset view) =
       slice_of [ {| doc_Name := "Supporting Documents";
                     doc_Date := "2023-11-14";
                     doc_URL := "ipfs://docs" |} ]) /\
  (exists view,
     Data (fst (@GetAllAssets example_runtime (snd out)))
       = PAssets (slice_of [view]) 1 /\
     Documents (asset view) =
       slice_of [ {| doc_Name := "Supporting Documents";
                     doc_Date := "2023-11-14";
                     doc_URL := "ipfs://docs" |} ]).
Proof.
  cbv zeta. split.
  - eexists _, _. split; [vm_compute; reflexivity|]. repeat split.
  - eexists. split; vm_compute; reflexivity.
Qed.

(** C6 (as amended).  An update-staking request for an existing record with
    an amount above the record's total supply fails with status 400 and
    leaves the table as it was; with an amount that is not zero and does not
    exceed the total supply it succeeds, the record gets the requested staked
    amount and a refreshed update time, nothing else in it changes, and the
    other records stay. *)
Theorem C6_update_staking `{RT : Runtime} now id v db r :
  reachable db -> lookup id db = Some r ->
  let out := UpdateAssetStaking now id (staking_body v) db in
  (v > TotalSupply r ->
     StatusCode (fst out) = StatusBadRequest /\ Success (fst out) = false /\
     snd out = db) /\
  (v <= TotalSupply r -> v <> 0 ->
     StatusCode (fst out) = StatusOK /\ Success (fst out) = true /\
     lookup id (snd out) = Some (set_UpdatedAt now (set_StakedAmount v r)) /\
     forall id', id' <> id -> lookup id' (snd out) = lookup id' db).
Proof.
  intros Hr Hl out. subst out.
  pose proof (reachable_store_ok _ Hr) as Hok.
  destruct (store_ok_lookup _ _ _ Hok Hl) as [[Hcol _] [Hid Hne]].
  split.
  - intros Hgt. destruct (Z.eq_dec v 0) as [-> | Hv].
    + rewrite UpdateAssetStaking_zero. now repeat split.
    + rewrite (UpdateAssetStaking_exceeds _ _ _ _ _ Hv Hl Hgt).
      now repeat split.
  - intros Hle Hv.
    rewrite (UpdateAssetStaking_accepts _ _ _ _ _ Hv Hl Hne Hle).
    cbn [fst snd]. split; [reflexivity|]. split; [reflexivity|]. split.
    + rewrite lookup_replace_row; [| exact Hid | eapply lookup_in_ids; eauto].
      f_equal. apply columns_fixed in Hcol. apply columns_fixed. exact Hcol.
    + intros id' Hne'. now apply lookup_replace_row_other.
Qed.

(** C6 (counterexample).  The example asset has total supply 1000 and 250
    units staked.  A request to set the staked amount to 0, which does not
    exceed the total supply, is answered with 400 and the staked amount
    stays 250. *)
Lemma C6_counterexample :
  let out :=
    @UpdateAssetStaking example_runtime (example_later + 1) "asset_1700000000"
      (staking_body 0) example_db_staked in
  option_map TotalSupply (lookup "asset_1700000000" example_db_staked)
    = Some 1000 /\
  0 <= 1000 /\
  StatusCode (fst out) = StatusBadRequest /\
  option_map StakedAmount (lookup "asset_1700000000" (snd out)) = Some 250 /\
  option_map UpdatedAt (lookup "asset_1700000000" (snd out))
    = Some example_later.
Proof. cbv zeta. repeat split. discriminate. Qed.

Lemma C6_witness :
  @reachable example_runtime example_db /\
  lookup "asset_1700000000" example_db = Some example_asset /\
  let out :=
    @UpdateAssetStaking example_runtime example_later "asset_1700000000"
      (staking_body 250) example_db in
  (250 > 1000 ->
     StatusCode (fst out) = StatusBadRequest /\ Success (fst out) = false /\
     snd out = example_db) /\
  (250 <= 1000 -> 250 <> 0 ->
     StatusCode (fst out) = StatusOK /\ Success (fst out) = true /\
     lookup "asset_1700000000" (snd out) =
       Some (set_UpdatedAt example_later (set_StakedAmount 250 example_asset))
     /\
     forall id', id' <> "asset_1700000000" ->
       lookup id' (snd out) = lookup id' example_db).
Proof.
  split; [exact example_db_reachable|].
  split; [reflexivity|].
  apply (@C6_update_staking example_runtime example_later
           "asset_1700000000" 250 example_db example_asset).
  - exact example_db_reachable.
  - reflexivity.
Defined.

(** C7 (as amended).  An update-contract request with a non-empty contract
    address for an existing record succeeds; the record gets the supplied
    contract address, the supplied transaction hash when that is not empty
    and its former one otherwise, and a refreshed update time; no other field
    of the record changes, and the other records stay. *)
Theorem C7_update_contract `{RT : Runtime} now id addr tx db r :
  reachable db -> lookup id db = Some r -> addr <> "" ->
  let out := UpdateContractAddress now id (contract_body addr tx) db in
  let r' :=
    set_UpdatedAt now
      (set_TxHash (if String.eqb tx "" then TxHash r else tx)
         (set_ContractAddress addr r)) in
  StatusCode (fst out) = StatusOK /\ Success (fst out) = true /\
  lookup id (snd out) = Some r' /\
  ContractAddress r' = addr /\
  (tx <> "" -> TxHash r' = tx) /\
  (tx = "" -> TxHash r' = TxHash r) /\
  UpdatedAt r' = now /\
  set_UpdatedAt (UpdatedAt r)
    (set_TxHash (TxHash r) (set_ContractAddress (ContractAddress r) r')) = r /\
  forall id', id' <> id -> lookup id' (snd out) = lookup id' db.
Proof.
  intros Hr Hl Ha out r'. subst out r'.
  pose proof (reachable_store_ok _ Hr) as Hok.
  destruct (store_ok_lookup _ _ _ Hok Hl) as [[Hcol _] [Hid Hne]].
  rewrite (UpdateContractAddress_accepts _ _ _ _ _ _ Ha Hl Hne).
  cbn [fst snd]. split; [reflexivity|]. split; [reflexivity|]. split.
  { rewrite lookup_replace_row; [| exact Hid | eapply lookup_in_ids; eauto].
    f_equal. apply columns_fixed in Hcol. apply columns_fixed. exact Hcol. }
  split; [reflexivity|]. split.
  { intros Htx. apply String.eqb_neq in Htx. cbn. now rewrite Htx. }
  split.
  { intros ->. reflexivity. }
  split; [reflexivity|]. split.
  { now destruct r. }
  intros id' Hne'. now apply lookup_replace_row_other.
Qed.

(** C7 (counterexample).  An update-contract request for the example asset
    with an empty contract address (and a transaction hash) is answered with
    400: the contract address is not set to the supplied value, and neither
    the transaction hash nor the update time changes. *)
Lemma C7_counterexample :
  let out :=
    @UpdateContractAddress example_runtime example_later "asset_1700000000"
      (contract_body "" "0xabc") example_db in
  StatusCode (fst out) = StatusBadRequest /\
  option_map ContractAddress (lookup "asset_1700000000" (snd out))
    = Some "pending" /\
  option_map ContractAddress (lookup "asset_1700000000" (snd out))
    <> Some "" /\
  option_map UpdatedAt (lookup "asset_1700000000" (snd out))
    = Some example_now /\
  example_now <> example_later.
Proof. cbv zeta. repeat split; discriminate. Qed.

Lemma C7_witness :
  @reachable example_runtime example_db /\
  lookup "asset_1700000000" example_db = Some example_asset /\
  "0xABC" <> "" /\
  let out :=
    @UpdateContractAddress example_runtime example_later "asset_1700000000"
      (contract_body "0xABC" "") example_db in
  StatusCode (fst out) = StatusOK /\
  option_map ContractAddress (lookup "asset_1700000000" (snd out))
    = Some "0xABC" /\
  option_map TxHash (lookup "asset_1700000000" (snd out))
    = Some (TxHash example_asset).
Proof.
  split; [exact example_db_reachable|].
  split; [reflexivity|].
  split; [discriminate|].
  destruct (@C7_update_contract example_runtime example_later
              "asset_1700000000" "0xABC" "" example_db example_asset
              example_db_reachable eq_refl)
    as (Hs & _ & Hl & _); [discriminate|].
  split; [exact Hs|]. rewrite Hl. split; reflexivity.
Defined.

(** C9.  Take a mint request without price per unit and without contract
    address.  When its required fields are present, its total supply and
    yield parse and the identifier is free, the mint succeeds; and whenever
    it succeeds, the record it created has price per unit 1.0, contract
    address "pending" and staked amount 0, and the view it returns has
    [isContractActive = false]. *)
Theorem C9_mint_defaults `{RT : Runtime} now req db :
  MintRequest.PricePerRWA req = "" ->
  MintRequest.ContractAddress req = "" ->
  let out := MintAsset now (Some req) db in
  (BindJSON_Mint (Some req) = Some req ->
   ParseInt (MintRequest.TotalSupply req) <> None ->
   ParseFloat (MintRequest.ExpectedYield req) <> None ->
   ~ In (String.append "asset_" (itoa (Unix now))) (map ID db) ->
   Success (fst out) = true) /\
  (Success (fst out) = true ->
   exists id view created,
     StatusCode (fst out) = StatusCreated /\
     Data (fst out) = PMint id view /\
     lookup id (snd out) = Some created /\
     lookup id db = None /\
     asset view = created /\
     PriceUsd created = 1%float /\
     ContractAddress created = "pending" /\
     StakedAmount created = 0 /\
     IsContractActive view = false).
Proof.
  intros Hp Hc out. subst out. split.
  - intros Hb Hts Hey Hfresh. unfold MintAsset. rewrite Hb.
    destruct (ParseInt (MintRequest.TotalSupply req)) as [ts|]; [|congruence].
    destruct (ParseFloat (MintRequest.ExpectedYield req)) as [ey|];
      [|congruence].
    rewrite Hp. cbn [String.eqb negb]. unfold Create. cbn [ID].
    apply existsb_has_id_false in Hfresh. now rewrite Hfresh.
  - intros Hs. destruct (MintAsset now (Some req) db) as [resp db'] eqn:E.
    cbn [fst snd] in *.
    destruct (MintAsset_success _ _ _ _ _ E Hs)
      as (req' & ts & ey & a & Hb & _ & _ & Hprice & _ & _ & Hst & Hca & _ &
          _ & _ & Hfresh & -> & ->).
    injection Hb as <-. rewrite Hp in Hprice. rewrite Hc in Hca.
    cbn [String.eqb] in Hprice, Hca. injection Hprice as Hprice.
    exists (ID a), (ToAssetResponse a), a.
    split; [reflexivity|]. split; [reflexivity|].
    split; [now apply lookup_app_fresh|].
    split; [now apply find_has_id_none|].
    split; [reflexivity|]. split; [now symmetry|].
    split; [assumption|]. split; [assumption|].
    cbn [IsContractActive ToAssetResponse]. now rewrite Hca.
Qed.

Lemma C9_witness :
  MintRequest.PricePerRWA example_mint = "" /\
  MintRequest.ContractAddress example_mint = "" /\
  let out := @MintAsset example_runtime example_now (Some example_mint) [] in
  Success (fst out) = true /\
  exists id view created,
    StatusCode (fst out) = StatusCreated /\
    Data (fst out) = PMint id view /\
    lookup id (snd out) = Some created /\
    lookup id [] = None /\
    asset view = created /\
    PriceUsd created = 1%float /\
    ContractAddress created = "pending" /\
    StakedAmount created = 0 /\
    IsContractActive view = false.
Proof.
  split; [reflexivity|]. split; [reflexivity|].
  destruct (@C9_mint_defaults example_runtime example_now example_mint []
              eq_refl eq_refl) as [Hs Hv].
  assert (Hok :
    Success (fst (@MintAsset example_runtime example_now (Some example_mint) []))
    = true).
  { apply Hs; [reflexivity | discriminate | discriminate | intros []]. }
  split; [exact Hok | exact (Hv Hok)].
Defined.

(** C10.  An update-staking request whose staked amount is 0 (the value an
    absent field decodes to) is rejected with status 400 and the message
    "Invalid request data" whatever the table holds, and the table is left as
    it was.  So no update-staking request sets a staked amount to 0: a record
    whose staked amount is not 0 before the request has a staked amount that
    is not 0 after it. *)
Theorem C10_zero_staked_amount_rejected `{RT : Runtime} now id db :
  UpdateAssetStaking now id (staking_body 0) db =
    (ErrorResponse StatusBadRequest "Invalid request data" BindingError, db)
  /\
  (reachable db ->
   forall body id' r,
     lookup id' db = Some r -> StakedAmount r <> 0 ->
     exists r',
       lookup id' (snd (UpdateAssetStaking now id body db)) = Some r' /\
       StakedAmount r' <> 0).
Proof.
  split; [reflexivity|].
  intros Hr body id' r Hl' Hst.
  pose proof (reachable_store_ok _ Hr) as Hok.
  destruct body as [[v]|]; [|now exists r].
  fold (staking_body v).
  destruct (Z.eq_dec v 0) as [-> | Hv]; [now exists r|].
  destruct (lookup id db) as [r0|] eqn:Hl.
  2:{ rewrite UpdateAssetStaking_not_found by assumption. now exists r. }
  destruct (store_ok_lookup _ _ _ Hok Hl) as [_ [Hid Hne]].
  destruct (Z_gt_le_dec v (TotalSupply r0)) as [Hgt | Hle].
  { rewrite (UpdateAssetStaking_exceeds _ _ _ _ _ Hv Hl Hgt). now exists r. }
  rewrite (UpdateAssetStaking_accepts _ _ _ _ _ Hv Hl Hne Hle). cbn [snd].
  destruct (string_dec id' id) as [-> | Hne'].
  - eexists. split.
    + apply lookup_replace_row; [exact Hid | eapply lookup_in_ids; eauto].
    + exact Hv.
  - exists r. split; [|assumption].
    rewrite lookup_replace_row_other; [assumption | exact Hid | assumption].
Qed.

Lemma C10_witness :
  @UpdateAssetStaking example_runtime (example_later + 1) "asset_1700000000"
    (staking_body 0) example_db_staked =
    (ErrorResponse StatusBadRequest "Invalid request data" BindingError,
     example_db_staked) /\
  @reachable example_runtime example_db_staked /\
  exists r',
    lookup "asset_1700000000"
      (snd (@UpdateAssetStaking example_runtime (example_later + 1)
              "asset_1700000000" (staking_body 0) example_db_staked))
      = Some r' /\
    StakedAmount r' <> 0.
Proof.
  destruct (@C10_zero_staked_amount_rejected example_runtime
              (example_later + 1) "asset_1700000000" example_db_staked)
    as [Hz Hkeep].
  split; [exact Hz|]. split; [exact example_db_staked_reachable|].
  apply (Hkeep example_db_staked_reachable (staking_body 0)
           "asset_1700000000"
           (set_UpdatedAt example_later (set_StakedAmount 250 example_asset)));
    [reflexivity | discriminate].
Defined.

(** C8 (as amended).  For a record whose staked amount is not negative and
    does not exceed its total supply (a 64-bit integer): when the total
    supply is positive the staking progress is the binary64 value of
    [float64(stakedAmount) / float64(totalSupply) * 100] and lies between 0
    and 100; when the total supply is 0 it is exactly 0. *)
Theorem C8_staking_progress a :
  0 <= StakedAmount a <= TotalSupply a -> TotalSupply a <= int64_max ->
  let p := StakingProgress (ToAssetResponse a) in
  (TotalSupply a > 0 ->
     p = (float64_of_int64 (StakedAmount a)
            / float64_of_int64 (TotalSupply a) * 100)%float /\
     (0 <=? p)%float = true /\ (p <=? 100)%float = true) /\
  (TotalSupply a = 0 -> p = 0%float).
Proof.
  intros Hs Ht p. subst p. cbn [StakingProgress ToAssetResponse]. split.
  - intros Hpos.
    replace (TotalSupply a >? 0) with true by (symmetry; apply Z.gtb_lt; lia).
    split; [reflexivity|].
    apply percentage_bounds; [assumption|].
    unfold int64_max in Ht. lia.
  - intros ->. reflexivity.
Qed.

(** C8 (counterexample).  The record the service holds after a request to
    stake -5 units of the example asset has staked amount -5, within its
    total supply 1000, and a staking progress of -0.5, below 0. *)
Lemma C8_counterexample :
  let a := set_UpdatedAt example_later (set_StakedAmount (-5) example_asset) in
  In a (snd (@UpdateAssetStaking example_runtime example_later
               "asset_1700000000" (staking_body (-5)) example_db)) /\
  StakedAmount a <= TotalSupply a /\ TotalSupply a > 0 /\
  StakingProgress (ToAssetResponse a) = (-0.5)%float /\
  (0 <=? StakingProgress (ToAssetResponse a))%float = false.
Proof.
  cbv zeta. split; [vm_compute; left; reflexivity|].
  split; [vm_compute; discriminate|].
  split; [vm_compute; reflexivity|].
  split; vm_compute; reflexivity.
Qed.

Lemma C8_witness :
  0 <= 250 <= 1000 /\ 1000 <= int64_max /\
  let p := StakingProgress (ToAssetResponse (set_StakedAmount 250 example_asset)) in
  (1000 > 0 ->
     p = (float64_of_int64 250 / float64_of_int64 1000 * 100)%float /\
     (0 <=? p)%float = true /\ (p <=? 100)%float = true) /\
  (1000 = 0 -> p = 0%float).
Proof.
  split; [lia|]. split; [discriminate|].
  apply (C8_staking_progress (set_StakedAmount 250 example_asset)).
  - cbn. lia.
  - discriminate.
Defined.

(* ================================================================== *)
(** * Further properties of the handlers and of the derived view       *)
(* ================================================================== *)

(** ** Listing *)

Lemma insert_desc_perm a l : Permutation (insert_desc a l) (a :: l).
Proof.
  induction l as [|b l IH]; cbn [insert_desc]; [reflexivity|].
  destruct (CreatedAt b <=? CreatedAt a); [reflexivity|].
  rewrite IH. apply perm_swap.
Qed.

Lemma order_created_at_desc_perm db : Permutation (order_created_at_desc db) db.
Proof.
  unfold order_created_at_desc. induction db as [|a db IH]; cbn [fold_right];
    [reflexivity|].
  rewrite insert_desc_perm. now constructor.
Qed.

Lemma insert_desc_Forall (P : Asset -> Prop) a l :
  P a -> Forall P l -> Forall P (insert_desc a l).
Proof.
  intros Ha Hl. eapply Permutation_Forall.
  - symmetry. apply insert_desc_perm.
  - now constructor.
Qed.

Lemma insert_desc_sorted a l :
  StronglySorted newest_first l -> StronglySorted newest_first (insert_desc a l).
Proof.
  induction 1 as [|b l Hs IH Hb]; cbn [insert_desc].
  - repeat constructor.
  - destruct (CreatedAt b <=? CreatedAt a) eqn:E.
    + apply Z.leb_le in E. constructor; [now constructor|].
      constructor; [exact E|].
      eapply Forall_impl; [|exact Hb]. unfold newest_first. intros; lia.
    + apply Z.leb_gt in E. constructor; [assumption|].
      apply insert_desc_Forall; [unfold newest_first; lia | assumption].
Qed.

Lemma order_created_at_desc_sorted db :
  StronglySorted newest_first (order_created_at_desc db).
Proof.
  unfold order_created_at_desc. induction db as [|a db IH]; cbn [fold_right];
    [constructor | now apply insert_desc_sorted].
Qed.

(** X1.  The list handler returns one view for every record of the table,
    each built from the record as a query loads it, ordered by creation time
    with the newest first; it leaves the table as it was. *)
Theorem GetAllAssets_newest_first `{RT : Runtime} db :
  exists rows assets,
    Permutation rows db /\
    StronglySorted newest_first rows /\
    fst (GetAllAssets db) =
      SuccessResponse StatusOK "Assets fetched successfully"
        (PAssets assets (Z.of_nat (List.length db))) /\
    elems assets = map (fun r => ToAssetResponse (AfterFind r)) rows /\
    snd (GetAllAssets db) = db.
Proof.
  exists (order_created_at_desc db).
  unfold GetAllAssets, Find. rewrite GetAllAssets_on_Ok.
  rewrite length_map, order_created_at_desc_length.
  eexists. split; [apply order_created_at_desc_perm|].
  split; [apply order_created_at_desc_sorted|].
  split; [reflexivity|]. split; [|reflexivity].
  rewrite map_map. now destruct (order_created_at_desc db).
Qed.

(** ** Reading a record back *)



(** ** Unknown identifiers *)

Lemma UpdateContractAddress_bind_failure `{RT : Runtime} now id body db :
  BindJSON_UpdateContract body = None ->
  UpdateContractAddress now id body db =
  (ErrorResponse StatusBadRequest "Invalid request data" BindingError, db).
Proof. intros H. unfold UpdateContractAddress. now rewrite H. Qed.

Lemma UpdateAssetStaking_bind_failure `{RT : Runtime} now id body db :
  BindJSON_UpdateStaking body = None ->
  UpdateAssetStaking now id body db =
  (ErrorResponse StatusBadRequest "Invalid request data" BindingError, db).
Proof. intros H. unfold UpdateAssetStaking. now rewrite H. Qed.

(** X3.  For an identifier that no record of the table has: get-by-id and
    stats answer 404 "Asset not found"; update-contract and update-staking
    answer 400 "Invalid request data" when the body fails its binding and 404
    otherwise, so the body is validated before the record is looked up.  The
    answer is an error envelope in every case and the table stays as it
    was. *)
Theorem unknown_identifier `{RT : Runtime} now id db :
  lookup id db = None ->
  let not_found :=
    (ErrorResponse StatusNotFound "Asset not found"
       (StoreError ErrRecordNotFound), db) in
  let invalid :=
    (ErrorResponse StatusBadRequest "Invalid request data" BindingError, db) in
  GetAssetByID id db = not_found /\
  GetAssetStats id db = not_found /\
  (forall body,
     UpdateContractAddress now id body db =
       match BindJSON_UpdateContract body with
       | None => invalid
       | Some _ => not_found
       end) /\
  (forall body,
     UpdateAssetStaking now id body db =
       match BindJSON_UpdateStaking body with
       | None => invalid
       | Some _ => not_found
       end).
Proof.
  intros Hl not_found invalid. subst not_found invalid.
  pose proof (First_missing _ _ Hl) as Hf.
  split; [unfold GetAssetByID; now rewrite Hf|].
  split; [unfold GetAssetStats; now rewrite Hf|].
  split; intros body.
  - unfold UpdateContractAddress.
    destruct (BindJSON_UpdateContract body); [now rewrite Hf | reflexivity].
  - unfold UpdateAssetStaking.
    destruct (BindJSON_UpdateStaking body); [now rewrite Hf | reflexivity].
Qed.

Lemma unknown_identifier_witness :
  lookup "asset_1" example_db = None /\
  @GetAssetByID example_runtime "asset_1" example_db =
    (ErrorResponse StatusNotFound "Asset not found"
       (StoreError ErrRecordNotFound), example_db) /\
  @UpdateAssetStaking example_runtime example_later "asset_1"
    (staking_body 250) example_db =
    (ErrorResponse StatusNotFound "Asset not found"
       (StoreError ErrRecordNotFound), example_db) /\
  @UpdateAssetStaking example_runtime example_later "asset_1"
    (staking_body 0) example_db =
    (ErrorResponse StatusBadRequest "Invalid request data" BindingError,
     example_db).
Proof.
  split; [vm_compute; reflexivity|].
  destruct (@unknown_identifier example_runtime example_later "asset_1"
              example_db) as (Hg & _ & _ & Hs); [vm_compute; reflexivity|].
  split; [exact Hg|].
  split; [exact (Hs (staking_body 250)) | exact (Hs (staking_body 0))].
Defined.

(** ** Requests that fail, requests that read *)

Lemma UpdateContractAddress_failure `{RT : Runtime} now id body db :
  Success (fst (UpdateContractAddress now id body db)) = false ->
  snd (UpdateContractAddress now id body db) = db.
Proof. unfold UpdateContractAddress. handler_cases; cbn; congruence. Qed.

Lemma UpdateAssetStaking_failure `{RT : Runtime} now id body db :
  Success (fst (UpdateAssetStaking now id body db)) = false ->
  snd (UpdateAssetStaking now id body db) = db.
Proof. unfold UpdateAssetStaking. handler_cases; cbn; congruence. Qed.

(** X4.  A request that is answered with an error envelope has no effect on
    the table, and the three reading routes never have one. *)
Theorem failed_or_reading_request_keeps_table `{RT : Runtime} now r db :
  Success (fst (handle now r db)) = false \/ read_only r = true ->
  snd (handle now r db) = db.
Proof.
  intros H. destruct r; cbn [handle read_only] in *.
  - reflexivity.
  - destruct H as [H | H]; [|discriminate].
    destruct (MintAsset now body db) as [resp db'] eqn:E.
    exact (MintAsset_failure _ _ _ _ _ E H).
  - apply GetAssetByID_same.
  - destruct H as [H | H]; [|discriminate].
    now apply UpdateContractAddress_failure.
  - apply GetAssetStats_same.
  - destruct H as [H | H]; [|discriminate].
    now apply UpdateAssetStaking_failure.
Qed.

Lemma failed_or_reading_request_keeps_table_witness :
  (Success (fst (@handle example_runtime example_later
                   (PATCH_asset_staking "asset_1700000000" (staking_body 1001))
                   example_db)) = false \/
   read_only (PATCH_asset_staking "asset_1700000000" (staking_body 1001))
     = true) /\
  snd (@handle example_runtime example_later
         (PATCH_asset_staking "asset_1700000000" (staking_body 1001))
         example_db) = example_db.
Proof.
  assert (H : Success (fst (@handle example_runtime example_later
                   (PATCH_asset_staking "asset_1700000000" (staking_body 1001))
                   example_db)) = false \/
   read_only (PATCH_asset_staking "asset_1700000000" (staking_body 1001))
     = true) by (left; vm_compute; reflexivity).
  split; [exact H|].
  exact (@failed_or_reading_request_keeps_table example_runtime example_later
           (PATCH_asset_staking "asset_1700000000" (staking_body 1001))
           example_db H).
Defined.

(** ** What no request changes *)

Lemma without_mutable_contract r now tx addr :
  columns r = r ->
  without_mutable
    (columns (set_UpdatedAt now (set_TxHash tx (set_ContractAddress addr r))))
  = without_mutable r.
Proof.
  intros Hcol. apply columns_fixed in Hcol. destruct Hcol as [Hd Ht].
  destruct r; cbn in Hd, Ht. subst. reflexivity.
Qed.

Lemma without_mutable_staking r now v :
  columns r = r ->
  without_mutable (columns (set_UpdatedAt now (set_StakedAmount v r)))
  = without_mutable r.
Proof.
  intros Hcol. apply columns_fixed in Hcol. destruct Hcol as [Hd Ht].
  destruct r; cbn in Hd, Ht. subst. reflexivity.
Qed.

Section Persistence.
Context `{RT : Runtime}.

Lemma handle_keeps_record now rq db id r :
  store_ok db -> lookup id db = Some r ->
  exists r', lookup id (snd (handle now rq db)) = Some r' /\
             without_mutable r' = without_mutable r.
Proof.
  intros Hok Hl. pose proof (store_ok_lookup _ _ _ Hok Hl) as [[Hcol _] _].
  destruct rq as [|body|id0|id0 body|id0|id0 body]; cbn [handle].
  - now exists r.
  - destruct (MintAsset now body db) as [resp db'] eqn:E. cbn [snd].
    destruct (Success resp) eqn:Hs.
    + destruct (MintAsset_success _ _ _ _ _ E Hs)
        as (req & ts & ey & a & _ & _ & _ & _ & _ & _ & _ & _ & _ & _ &
            _ & Hfresh & _ & ->).
      exists r. split; [|reflexivity].
      rewrite lookup_app_old; [assumption|].
      intros ->. apply Hfresh. eapply lookup_in_ids; eauto.
    + rewrite (MintAsset_failure _ _ _ _ _ E Hs). now exists r.
  - rewrite GetAssetByID_same. now exists r.
  - destruct body as [[addr tx]|]; [|now exists r].
    fold (contract_body addr tx).
    destruct (string_dec addr "") as [-> | Ha]; [now exists r|].
    destruct (lookup id0 db) as [r0|] eqn:Hl0.
    2:{ rewrite UpdateContractAddress_not_found by assumption. now exists r. }
    destruct (store_ok_lookup _ _ _ Hok Hl0) as [_ [Hid Hne]].
    rewrite (UpdateContractAddress_accepts _ _ _ _ _ _ Ha Hl0 Hne). cbn [snd].
    destruct (string_dec id id0) as [-> | Hd].
    + assert (r0 = r) by congruence. subst r0.
      eexists. split.
      * apply lookup_replace_row; [exact Hid | eapply lookup_in_ids; eauto].
      * exact (without_mutable_contract r now _ addr Hcol).
    + exists r. split; [|reflexivity].
      rewrite lookup_replace_row_other; [assumption | exact Hid | assumption].
  - rewrite GetAssetStats_same. now exists r.
  - destruct body as [[v]|]; [|now exists r].
    fold (staking_body v).
    destruct (Z.eq_dec v 0) as [-> | Hv]; [now exists r|].
    destruct (lookup id0 db) as [r0|] eqn:Hl0.
    2:{ rewrite UpdateAssetStaking_not_found by assumption. now exists r. }
    destruct (store_ok_lookup _ _ _ Hok Hl0) as [_ [Hid Hne]].
    destruct (Z_gt_le_dec v (TotalSupply r0)) as [Hgt | Hle].
    { rewrite (UpdateAssetStaking_exceeds _ _ _ _ _ Hv Hl0 Hgt).
      now exists r. }
    rewrite (UpdateAssetStaking_accepts _ _ _ _ _ Hv Hl0 Hne Hle). cbn [snd].
    destruct (string_dec id id0) as [-> | Hd].
    + assert (r0 = r) by congruence. subst r0.
      eexists. split.
      * apply lookup_replace_row; [exact Hid | eapply lookup_in_ids; eauto].
      * exact (without_mutable_staking r now v Hcol).
    + exists r. split; [|reflexivity].
      rewrite lookup_replace_row_other; [assumption | exact Hid | assumption].
Qed.

(** X5.  No sequence of requests deletes a record or changes any of its
    fields other than the staked amount, the contract address, the
    transaction hash and the update time: identifier, name, symbol, type,
    institution, description, total supply, price, yield, creation time,
    blockchain and the two URIs stay as minted. *)
Theorem records_persist trace db id r :
  reachable db -> lookup id db = Some r ->
  exists r', lookup id (serve trace db) = Some r' /\
             without_mutable r' = without_mutable r.
Proof.
  intros Hr. apply reachable_store_ok in Hr. revert db r Hr.
  induction trace as [|[now rq] trace IH]; intros db r Hok Hl; cbn [serve].
  - now exists r.
  - destruct (handle_keeps_record now rq db id r Hok Hl) as (r1 & Hl1 & E1).
    destruct (IH _ r1 (handle_store_ok now rq db Hok) Hl1) as (r2 & Hl2 & E2).
    exists r2. split; [assumption | congruence].
Qed.

End Persistence.

Lemma records_persist_witness :
  @reachable example_runtime example_db /\
  lookup "asset_1700000000" example_db = Some example_asset /\
  exists r',
    lookup "asset_1700000000"
      (@serve example_runtime
         [(example_later,
           PATCH_asset_staking "asset_1700000000" (staking_body 250));
          (example_later,
           PATCH_asset_contract "asset_1700000000" (contract_body "0xABC" ""))]
         example_db) = Some r' /\
    without_mutable r' = without_mutable example_asset.
Proof.
  split; [exact example_db_reachable|].
  split; [vm_compute; reflexivity|].
  apply (@records_persist example_runtime); [exact example_db_reachable|].
  vm_compute; reflexivity.
Defined.

(** ** One mint per second *)








(** ** The available supply *)

Lemma wrap64_small z : - 2 ^ 63 <= z < 2 ^ 63 -> wrap64 z = z.
Proof. intros H. unfold wrap64. rewrite Z.mod_small; lia. Qed.

Lemma wrap64_range z : - 2 ^ 63 <= wrap64 z < 2 ^ 63.
Proof.
  unfold wrap64. pose proof (Z.mod_pos_bound (z + 2 ^ 63) (2 ^ 64)). lia.
Qed.

Lemma wrap64_over z : 2 ^ 63 <= z < 2 ^ 64 -> wrap64 z = z - 2 ^ 64.
Proof.
  intros H. unfold wrap64.
  replace (z + 2 ^ 63) with ((z - 2 ^ 63) + 1 * 2 ^ 64) by lia.
  rewrite Z.mod_add by lia. rewrite Z.mod_small; lia.
Qed.

(** X7.  The available supply of a view is never negative and fits 64 bits.
    For a total supply and a staked amount that are not negative it is the
    difference of the two, or 0 when more is staked than supplied.  When the
    difference overflows 64 bits (which takes a negative staked amount) the
    subtraction wraps to a negative number and the available supply is 0. *)
Theorem AvailableSupply_spec a :
  let v := ToAssetResponse a in
  0 <= AvailableSupply v <= int64_max /\
  (0 <= StakedAmount a <= int64_max -> 0 <= TotalSupply a <= int64_max ->
     AvailableSupply v = Z.max 0 (TotalSupply a - StakedAmount a)) /\
  (in_int64 (TotalSupply a) = true -> in_int64 (StakedAmount a) = true ->
   int64_max < TotalSupply a - StakedAmount a ->
     AvailableSupply v = 0).
Proof.
  cbv zeta. cbn [AvailableSupply ToAssetResponse]. unfold int64_max.
  pose proof (wrap64_range (TotalSupply a - StakedAmount a)) as Hr.
  split; [|split].
  - destruct (Z.ltb_spec (wrap64 (TotalSupply a - StakedAmount a)) 0); lia.
  - intros Hs Ht. rewrite wrap64_small by lia.
    destruct (Z.ltb_spec (TotalSupply a - StakedAmount a) 0); lia.
  - unfold in_int64, int64_min, int64_max. intros Ht Hs Hov.
    apply andb_true_iff in Ht, Hs. rewrite !Z.leb_le in Ht, Hs.
    rewrite wrap64_over by lia.
    destruct (Z.ltb_spec (TotalSupply a - StakedAmount a - 2 ^ 64) 0); lia.
Qed.

Lemma AvailableSupply_spec_witness :
  let a := set_StakedAmount 250 example_asset in
  (0 <= StakedAmount a <= int64_max) /\ (0 <= TotalSupply a <= int64_max) /\
  AvailableSupply (ToAssetResponse a) = 750 /\
  let b := set_StakedAmount (-1) (set_StakedAmount 0 example_asset) in
  AvailableSupply (ToAssetResponse b) = 1001.
Proof.
  cbv zeta.
  destruct (AvailableSupply_spec (set_StakedAmount 250 example_asset))
    as (_ & H & _).
  split; [vm_compute; split; discriminate|].
  split; [vm_compute; split; discriminate|].
  split.
  - rewrite H; [reflexivity | vm_compute; split; discriminate
                | vm_compute; split; discriminate].
  - vm_compute; reflexivity.
Defined.

(** ** The investment limits *)

Lemma SFcompare_antisym x y c :
  SFcompare x y = Some c -> SFcompare y x = Some (CompOpp c).
Proof.
  destruct x as [[|]|[|]| |[|] mx ex], y as [[|]|[|]| |[|] my ey];
    cbn [SFcompare]; intros H; try discriminate;
    try (injection H as <-; reflexivity).
  - injection H as <-. f_equal. rewrite (Z.compare_antisym ex ey).
    destruct (ex ?= ey); cbn [CompOpp]; try reflexivity.
    f_equal. rewrite (Pos.compare_cont_antisym mx my Eq). reflexivity.
  - injection H as <-. f_equal. rewrite (Z.compare_antisym ex ey).
    destruct (ex ?= ey); cbn [CompOpp]; try reflexivity.
    rewrite (Pos.compare_cont_antisym mx my Eq). reflexivity.
Qed.

Lemma SFcompare_some x y :
  x <> S754_nan -> y <> S754_nan -> exists c, SFcompare x y = Some c.
Proof.
  destruct x as [[|]|[|]| |[|] mx ex], y as [[|]|[|]| |[|] my ey];
    cbn [SFcompare]; intros Hx Hy; try congruence; eauto.
Qed.

Lemma SFcompare_refl x : x <> S754_nan -> SFcompare x x = Some Eq.
Proof.
  destruct x as [[|]|[|]| |[|] m e]; cbn [SFcompare]; intros H;
    try congruence; rewrite Z.compare_refl, Pos.compare_cont_refl;
    reflexivity.
Qed.

Lemma SFltb_irrefl x : SFltb x x = false.
Proof.
  unfold SFltb. destruct (SFcompare x x) as [[| |]|] eqn:E; try reflexivity.
  pose proof (SFcompare_antisym _ _ _ E) as E'. cbn in E'. congruence.
Qed.

Lemma SFleb_of_not_ltb x y :
  x <> S754_nan -> y <> S754_nan -> SFltb x y = false -> SFleb y x = true.
Proof.
  intros Hx Hy. unfold SFltb, SFleb.
  destruct (SFcompare_some x y Hx Hy) as [c E]. rewrite E.
  rewrite (SFcompare_antisym _ _ _ E). now destruct c.
Qed.

Lemma shr_fexp_nonneg m e l r e' :
  0 <= m -> shr_fexp prec emax m e l = (r, e') -> 0 <= shr_m r.
Proof.
  intros Hm. unfold shr_fexp, shr.
  destruct (fexp prec emax (Zdigits2 m + e) - e) as [|p|p];
    intros H; injection H as <- <-; try now rewrite shr_m_of_loc.
  apply (iter_pos_inv shr_1 (fun r => 0 <= shr_m r)).
  - intros x Hx. now apply shr_1_code.
  - now rewrite shr_m_of_loc.
Qed.

Lemma binary_round_aux_not_nan s m e l :
  0 <= m -> binary_round_aux prec emax s m e l <> S754_nan.
Proof.
  intros Hm. unfold binary_round_aux.
  destruct (shr_fexp prec emax m e l) as [r1 e1] eqn:E1.
  pose proof (shr_fexp_nonneg _ _ _ _ _ Hm E1) as H1. fold (rne r1).
  destruct (shr_fexp prec emax (rne r1) e1 loc_Exact) as [r3 e3] eqn:E3.
  assert (H2 : 0 <= rne r1) by (pose proof (rne_bounds r1); lia).
  pose proof (shr_fexp_nonneg _ _ _ _ _ H2 E3) as H3.
  destruct (shr_m r3); [discriminate | | lia].
  destruct (e3 <=? emax - prec); discriminate.
Qed.

Lemma SFmul_finite_not_nan x y :
  sf_finite x -> sf_finite y -> SFmul prec emax x y <> S754_nan.
Proof.
  destruct x as [sx|sx| |sx mx ex], y as [sy|sy| |sy my ey];
    cbn [sf_finite SFmul]; try tauto; try discriminate.
  intros _ _. apply binary_round_aux_not_nan. lia.
Qed.

Lemma Prim2SF_finite x : is_finite x = true -> sf_finite (Prim2SF x).
Proof.
  unfold is_finite, Prim2SF. intros H. apply negb_true_iff in H.
  apply orb_false_iff in H. destruct H as [-> ->].
  destruct (is_zero x); [exact I|].
  destruct (Z.frexp x) as [r e].
  destruct (shr_fexp _ _ _ _ _) as [sh e'].
  destruct (shr_m sh); exact I.
Qed.

Lemma Prim2SF_nan x : is_nan x = true -> Prim2SF x = S754_nan.
Proof. unfold Prim2SF. now intros ->. Qed.

Lemma sf_finite_not_nan x : sf_finite x -> x <> S754_nan.
Proof. destruct x; cbn; congruence || tauto. Qed.

(** The conversion of a 64-bit integer is a finite float. *)
Lemma float64_of_int64_finite n :
  in_int64 n = true -> sf_finite (Prim2SF (float64_of_int64 n)).
Proof.
  unfold in_int64, int64_min, int64_max. intros H.
  apply andb_true_iff in H. rewrite !Z.leb_le in H.
  destruct (Z.eq_dec n (- 2 ^ 63)) as [-> | Hmin]; [exact I|].
  destruct (Z_lt_le_dec n 0) as [Hneg | Hpos].
  - unfold float64_of_int64, int64_min.
    replace (n =? - 2 ^ 63) with false by (symmetry; apply Z.eqb_neq; lia).
    replace (n <? 0) with true by (symmetry; apply Z.ltb_lt; lia).
    rewrite opp_spec.
    assert (E : Prim2SF (of_uint63 (Uint63.of_Z (- n))) = fl (- n)).
    { rewrite <- float64_of_int64_nonneg by lia.
      unfold float64_of_int64, int64_min.
      replace (- n =? - 2 ^ 63) with false by (symmetry; apply Z.eqb_neq; lia).
      replace (- n <? 0) with false by (symmetry; apply Z.ltb_ge; lia).
      reflexivity. }
    rewrite E. destruct (fl_shape (- n) ltac:(lia)) as (m & e & -> & _).
    exact I.
  - rewrite float64_of_int64_nonneg by lia.
    destruct (Z.eq_dec n 0) as [-> | Hn]; [exact I|].
    destruct (fl_shape n ltac:(lia)) as (m & e & -> & _). exact I.
Qed.

(** X8.  The maximum investment of a view is never below its minimum
    investment.  When the price is a finite number the minimum is at most
    the maximum; when the price is NaN, which [ParseFloat] accepts, that
    comparison fails. *)
Theorem investment_limits a :
  let v := ToAssetResponse a in
  (MaxInvestment v <? MinInvestment v)%float = false /\
  (is_finite (PriceUsd a) = true ->
     (MinInvestment v <=? MaxInvestment v)%float = true) /\
  (is_nan (PriceUsd a) = true ->
     (MinInvestment v <=? MaxInvestment v)%float = false).
Proof.
  cbv zeta. cbn [MaxInvestment MinInvestment ToAssetResponse].
  set (n := if wrap64 (TotalSupply a - StakedAmount a) <? 0 then 0
            else wrap64 (TotalSupply a - StakedAmount a)).
  set (av := (float64_of_int64 n * PriceUsd a)%float).
  split; [|split].
  - destruct (av <? PriceUsd a)%float eqn:E; [|exact E].
    rewrite ltb_spec. apply SFltb_irrefl.
  - intros Hp. apply Prim2SF_finite in Hp.
    assert (Hn : in_int64 n = true).
    { pose proof (wrap64_range (TotalSupply a - StakedAmount a)) as Hr.
      unfold in_int64, int64_min, int64_max. subst n.
      apply andb_true_iff. rewrite !Z.leb_le.
      destruct (Z.ltb_spec (wrap64 (TotalSupply a - StakedAmount a)) 0);
        lia. }
    assert (Hav : Prim2SF av <> S754_nan).
    { subst av. rewrite mul_spec. apply SFmul_finite_not_nan;
        [now apply float64_of_int64_finite | assumption]. }
    pose proof (sf_finite_not_nan _ Hp) as Hp'.
    destruct (av <? PriceUsd a)%float eqn:E; rewrite leb_spec.
    + unfold SFleb. now rewrite SFcompare_refl.
    + rewrite ltb_spec in E. now apply SFleb_of_not_ltb.
  - intros Hp. apply Prim2SF_nan in Hp.
    destruct (av <? PriceUsd a)%float; rewrite leb_spec, Hp; reflexivity.
Qed.

Lemma investment_limits_witness :
  is_finite (PriceUsd example_asset) = true /\
  (MinInvestment (ToAssetResponse example_asset)
     <=? MaxInvestment (ToAssetResponse example_asset))%float = true.
Proof.
  split; [vm_compute; reflexivity|].
  destruct (investment_limits example_asset) as (_ & H & _).
  apply H. vm_compute; reflexivity.
Defined.

(** ** The holders list after a staking update *)

(** X9.  The view the staking handler returns carries the new staked amount
    but the holders list computed when the record was loaded, that is, from
    the amount staked before; the next read derives the list from the new
    amount.  In particular the first staking on an asset answers with an
    empty holders list, and a read right after it lists three holders. *)
Theorem staking_view_holders_lag `{RT : Runtime} now id v db r :
  reachable db -> lookup id db = Some r -> v <> 0 -> v <= TotalSupply r ->
  let out := UpdateAssetStaking now id (staking_body v) db in
  exists uv gv,
    view_of (fst out) = Some uv /\
    view_of (fst (GetAssetByID id (snd out))) = Some gv /\
    StakedAmount (asset uv) = v /\
    StakedAmount (asset gv) = v /\
    AvailableSupply uv = AvailableSupply gv /\
    TopStakers (asset uv) = TopStakers (AfterFind r) /\
    TopStakers (asset gv) = TopStakers (AfterFind (set_StakedAmount v r)) /\
    (StakedAmount r <= 0 -> 0 < v ->
       TopStakers (asset uv) = slice_of [] /\
       len (TopStakers (asset gv)) = 3).
Proof.
  intros Hreach Hl Hv Hle.
  destruct (store_ok_lookup _ _ _ (reachable_store_ok _ Hreach) Hl)
    as (_ & Hid & Hne).
  cbv zeta. rewrite (UpdateAssetStaking_accepts now id v db r Hv Hl Hne Hle).
  cbn [fst snd].
  set (row := columns (set_UpdatedAt now (set_StakedAmount v r))).
  assert (Hl' : lookup id (replace_row id row db) = Some row).
  { apply lookup_replace_row; [exact Hid | eapply lookup_in_ids; eauto]. }
  unfold GetAssetByID. rewrite (First_lookup _ _ _ Hl'). cbn [fst].
  eexists _, _. split; [reflexivity|]. split; [reflexivity|].
  split; [reflexivity|]. split; [reflexivity|]. split; [reflexivity|].
  split; [reflexivity|]. split; [reflexivity|].
  intros Hold Hnew.
  cbn [asset ToAssetResponse TopStakers set_UpdatedAt set_StakedAmount
       AfterFind set_computed StakedAmount columns row].
  subst row.
  cbn [asset ToAssetResponse TopStakers set_UpdatedAt set_StakedAmount
       AfterFind set_computed StakedAmount columns].
  replace (StakedAmount r >? 0) with false
    by (symmetry; rewrite Z.gtb_ltb; apply Z.ltb_ge; lia).
  replace (v >? 0) with true
    by (symmetry; rewrite Z.gtb_ltb; apply Z.ltb_lt; lia).
  split; reflexivity.
Qed.

Lemma staking_view_holders_lag_witness :
  let out := @UpdateAssetStaking example_runtime example_later
               "asset_1700000000" (staking_body 250) example_db in
  exists uv gv,
    view_of (fst out) = Some uv /\
    view_of (fst (@GetAssetByID example_runtime "asset_1700000000" (snd out)))
      = Some gv /\
    TopStakers (asset uv) = slice_of [] /\
    len (TopStakers (asset gv)) = 3.
Proof.
  cbv zeta.
  destruct (@staking_view_holders_lag example_runtime example_later
              "asset_1700000000" 250 example_db example_asset)
    as (uv & gv & Hu & Hg & _ & _ & _ & _ & _ & H).
  - exact example_db_reachable.
  - vm_compute; reflexivity.
  - discriminate.
  - vm_compute; discriminate.
  - exists uv, gv. split; [exact Hu|]. split; [exact Hg|].
    apply H; vm_compute; [discriminate | reflexivity].
Defined.

(** ** The statistics of an asset *)

(** X10.  For a stored asset the stats handler answers 200 and leaves the
    table alone; total and circulating supply are both the total supply,
    whatever is staked, the holder count is the constant 3, and price and
    market cap are those of the view the get-by-id handler returns. *)
Theorem stats_agree_with_view `{RT : Runtime} id db r :
  lookup id db = Some r ->
  exists s gv,
    GetAssetStats id db =
      (SuccessResponse StatusOK "Asset stats fetched successfully" (PStats s),
       db) /\
    view_of (fst (GetAssetByID id db)) = Some gv /\
    ts_TotalSupply s = TotalSupply r /\
    ts_CirculatingSupply s = TotalSupply r /\
    ts_HolderCount s = 3 /\
    ts_Price s = MinInvestment gv /\
    ts_MarketCap s = MarketCap gv /\
    ts_MarketCap s = TotalValue gv.
Proof.
  intros Hl. unfold GetAssetStats, GetAssetByID.
  rewrite (First_lookup _ _ _ Hl). cbn [fst].
  eexists _, _. split; [reflexivity|]. split; [reflexivity|].
  repeat split.
Qed.

Lemma stats_agree_with_view_witness :
  lookup "asset_1700000000" example_db_staked <> None /\
  exists s,
    stats_of (fst (@GetAssetStats example_runtime "asset_1700000000"
                     example_db_staked)) = Some s /\
    ts_CirculatingSupply s = 1000 /\ ts_HolderCount s = 3.
Proof.
  destruct (lookup "asset_1700000000" example_db_staked) as [r|] eqn:E;
    [|vm_compute in E; discriminate].
  split; [discriminate|].
  destruct (@stats_agree_with_view example_runtime _ _ _ E)
    as (s & gv & Hs & _ & _ & Hc & Hh & _).
  exists s. rewrite Hs. split; [reflexivity|]. split; [|exact Hh].
  rewrite Hc. vm_compute in E. injection E as <-. reflexivity.
Defined.

(** ** Activation of the contract *)

(** X11.  After an accepted update of the contract address the view returned,
    and the view of the next read, carry the new address, and report the
    contract as active exactly when that address is not the word
    [pending]; a transaction hash left empty keeps the stored one. *)
Theorem contract_update_activates `{RT : Runtime} now id addr tx db r :
  reachable db -> lookup id db = Some r -> addr <> "" ->
  let out := UpdateContractAddress now id (contract_body addr tx) db in
  exists uv gv,
    view_of (fst out) = Some uv /\
    view_of (fst (GetAssetByID id (snd out))) = Some gv /\
    ContractAddress (asset uv) = addr /\
    ContractAddress (asset gv) = addr /\
    IsContractActive uv = negb (String.eqb addr "pending") /\
    IsContractActive gv = negb (String.eqb addr "pending") /\
    TxHash (asset gv) = (if String.eqb tx "" then TxHash r else tx) /\
    UpdatedAt (asset gv) = now /\
    columns (asset gv) = columns (asset uv).
Proof.
  intros Hreach Hl Ha.
  destruct (store_ok_lookup _ _ _ (reachable_store_ok _ Hreach) Hl)
    as (_ & Hid & Hne).
  cbv zeta.
  rewrite (UpdateContractAddress_accepts now id addr tx db r Ha Hl Hne).
  cbn [fst snd].
  set (tx' := if String.eqb tx "" then TxHash r else tx).
  set (row := columns (set_UpdatedAt now
                         (set_TxHash tx' (set_ContractAddress addr r)))).
  assert (Hl' : lookup id (replace_row id row db) = Some row).
  { apply lookup_replace_row; [exact Hid | eapply lookup_in_ids; eauto]. }
  unfold GetAssetByID. rewrite (First_lookup _ _ _ Hl'). cbn [fst].
  assert (Hact : negb (String.eqb addr "") = true).
  { apply negb_true_iff, String.eqb_neq, Ha. }
  eexists _, _. split; [reflexivity|]. split; [reflexivity|].
  split; [reflexivity|]. split; [reflexivity|].
  split.
  { cbn [view_of IsContractActive ToAssetResponse ContractAddress
         set_UpdatedAt set_TxHash set_ContractAddress].
    now rewrite Hact. }
  split.
  { subst row.
    cbn [view_of IsContractActive ToAssetResponse ContractAddress
         set_UpdatedAt set_TxHash set_ContractAddress AfterFind columns
         set_computed].
    now rewrite Hact. }
  split; [reflexivity|]. split; reflexivity.
Qed.

Lemma contract_update_activates_witness :
  let out := @UpdateContractAddress example_runtime example_later
               "asset_1700000000" (contract_body "0xabc" "") example_db in
  exists uv gv,
    view_of (fst out) = Some uv /\
    view_of (fst (@GetAssetByID example_runtime "asset_1700000000" (snd out)))
      = Some gv /\
    IsContractActive uv = true /\ IsContractActive gv = true.
Proof.
  cbv zeta.
  destruct (@contract_update_activates example_runtime example_later
              "asset_1700000000" "0xabc" "" example_db example_asset)
    as (uv & gv & Hu & Hg & _ & _ & Hau & Hag & _).
  - exact example_db_reachable.
  - vm_compute; reflexivity.
  - discriminate.
  - exists uv, gv. split; [exact Hu|]. split; [exact Hg|].
    split; [exact Hau | exact Hag].
Defined.

(** ** An update addresses one record *)

Section Updates.
Context `{RT : Runtime}.

Lemma update_outcome now rq db id0 :
  store_ok db -> target rq = Some id0 ->
  snd (handle now rq db) = db \/
  exists row, ID row = id0 /\ snd (handle now rq db) = replace_row id0 row db.
Proof.
  intros Hok Ht.
  destruct rq as [|body|id1|id1 body|id1|id1 body]; try discriminate;
    cbn [target] in Ht; injection Ht as ->; cbn [handle].
  - destruct body as [[addr tx]|]; [|now left].
    fold (contract_body addr tx).
    destruct (string_dec addr "") as [-> | Ha]; [now left|].
    destruct (lookup id0 db) as [r0|] eqn:Hl0.
    2:{ rewrite UpdateContractAddress_not_found by assumption. now left. }
    destruct (store_ok_lookup _ _ _ Hok Hl0) as [_ [Hid Hne]].
    rewrite (UpdateContractAddress_accepts _ _ _ _ _ _ Ha Hl0 Hne). cbn [snd].
    right. eexists. split; [|reflexivity]. exact Hid.
  - destruct body as [[v]|]; [|now left].
    fold (staking_body v).
    destruct (Z.eq_dec v 0) as [-> | Hv]; [now left|].
    destruct (lookup id0 db) as [r0|] eqn:Hl0.
    2:{ rewrite UpdateAssetStaking_not_found by assumption. now left. }
    destruct (store_ok_lookup _ _ _ Hok Hl0) as [_ [Hid Hne]].
    destruct (Z_gt_le_dec v (TotalSupply r0)) as [Hgt | Hle].
    { rewrite (UpdateAssetStaking_exceeds _ _ _ _ _ Hv Hl0 Hgt). now left. }
    rewrite (UpdateAssetStaking_accepts _ _ _ _ _ Hv Hl0 Hne Hle). cbn [snd].
    right. eexists. split; [|reflexivity]. exact Hid.
Qed.

(** X12.  An update request, accepted or not, neither adds nor removes a
    record nor reorders the table, and leaves every record other than the
    one it addresses exactly as it was. *)
Theorem update_touches_one_record now rq db id0 :
  reachable db -> target rq = Some id0 ->
  map ID (snd (handle now rq db)) = map ID db /\
  forall id, id <> id0 -> lookup id (snd (handle now rq db)) = lookup id db.
Proof.
  intros Hr Ht. apply reachable_store_ok in Hr.
  destruct (update_outcome now rq db id0 Hr Ht) as [-> | (row & Hid & ->)].
  - split; [reflexivity | intros; reflexivity].
  - split; [now apply map_ID_replace_row|].
    intros id Hne. now apply lookup_replace_row_other.
Qed.

Lemma handle_length now rq db :
  store_ok db ->
  List.length (snd (handle now rq db)) =
  (List.length db +
   match rq with
   | POST_assets_mint _ => if Success (fst (handle now rq db)) then 1 else 0
   | _ => 0
   end)%nat.
Proof.
  intros Hok.
  destruct rq as [|body|id1|id1 body|id1|id1 body].
  - replace (snd (handle now GET_assets db)) with db by reflexivity. lia.
  - cbn [handle]. destruct (MintAsset now body db) as [resp db'] eqn:E.
    cbn [fst snd]. destruct (Success resp) eqn:Hs.
    + destruct (MintAsset_success _ _ _ _ _ E Hs)
        as (req & ts & ey & a & _ & _ & _ & _ & _ & _ & _ & _ & _ & _ &
            _ & _ & _ & ->).
      now rewrite length_app.
    + rewrite (MintAsset_failure _ _ _ _ _ E Hs). lia.
  - cbn [handle]. rewrite GetAssetByID_same. lia.
  - destruct (update_outcome now (PATCH_asset_contract id1 body) db id1 Hok
                eq_refl) as [-> | (row & _ & ->)]; [lia|].
    unfold replace_row. rewrite length_map. lia.
  - cbn [handle]. rewrite GetAssetStats_same. lia.
  - destruct (update_outcome now (PATCH_asset_staking id1 body) db id1 Hok
                eq_refl) as [-> | (row & _ & ->)]; [lia|].
    unfold replace_row. rewrite length_map. lia.
Qed.

Lemma serve_length trace db :
  store_ok db ->
  List.length (serve trace db) = (List.length db + created trace db)%nat.
Proof.
  revert db. induction trace as [|[now rq] trace IH]; intros db Hok;
    cbn [serve created]; [lia|].
  rewrite IH by now apply handle_store_ok.
  rewrite (handle_length now rq db Hok). lia.
Qed.

(** X13.  After any sequence of requests on a fresh table, the total the
    list handler reports is the number of mint requests of the sequence that
    were answered with success: nothing else creates a record and nothing
    deletes one. *)
Theorem list_total_counts_mints trace :
  exists assets,
    fst (GetAllAssets (serve trace [])) =
      SuccessResponse StatusOK "Assets fetched successfully"
        (PAssets assets (Z.of_nat (created trace []))) /\
    List.length (elems assets) = created trace [].
Proof.
  pose proof (serve_length trace [] store_ok_nil) as Hlen.
  cbn [List.length Nat.add] in Hlen.
  unfold GetAllAssets, Find. rewrite GetAllAssets_on_Ok. cbn [fst].
  set (rows := order_created_at_desc (serve trace [])).
  assert (Hrows : List.length rows = created trace []).
  { subst rows. now rewrite order_created_at_desc_length. }
  eexists. split.
  - rewrite length_map, Hrows. reflexivity.
  - destruct rows as [|r rows]; [exact Hrows|].
    cbn [map elems]. cbn [List.length]. rewrite !length_map. exact Hrows.
Qed.

End Updates.

Lemma update_touches_one_record_witness :
  let rq := PATCH_asset_staking "asset_1700000000" (staking_body 250) in
  target rq = Some "asset_1700000000" /\
  map ID (snd (@handle example_runtime example_later rq example_db))
    = map ID example_db.
Proof.
  cbv zeta. split; [reflexivity|].
  apply (@update_touches_one_record example_runtime example_later
           (PATCH_asset_staking "asset_1700000000" (staking_body 250))
           example_db "asset_1700000000" example_db_reachable eq_refl).
Defined.
